(** * controller-spread-scheduler: the ControllerSpreadFilter plugin

    A shallow embedding of [pkg/controllerspread/controller_spread.go]
    and of the two Go standard-library routines it calls
    ([strconv.ParseInt] and the [%d] verb of [fmt.Sprintf]), followed by
    the properties of the admission predicate [Filter].

    Conventions.
    - Go strings are byte sequences: [string] (a list of [ascii]).
    - [int32], [int64], [uint64] and [int] values are integers of [Z];
      where the Go code does arithmetic that may wrap, the wrap-around is
      written out ([wrap_uint64], [int32_of_int64]).
    - [map[string]string] is [gmap string string]; a nil map reads like
      the empty one.  [sets.String] is [gset string].
    - The listers are read-only caches: they are functions from the
      query to the answer, and every query made by [Filter] is recorded
      in a log of store reads (the [Reads] monad). *)

From Stdlib Require Import ZArith Ascii String List Lia Bool.
From Stdlib Require Import DecimalString DecimalZ.
From stdpp Require Import base decidable option list strings gmap sets.

Local Open Scope string_scope.
Local Open Scope Z_scope.

(* ===================================================================== *)
(** ** Machine integers *)
(* ===================================================================== *)

Module mathx.

Definition MaxInt32 : Z := 2147483647.
Definition MinInt32 : Z := -2147483648.
Definition maxUint64 : Z := 18446744073709551615.

(** Arithmetic on [uint64] is modulo [2^64]. *)
Definition wrap_uint64 (z : Z) : Z := z mod 2 ^ 64.

(** The conversion [int32(x)] of an [int64]: the low 32 bits, read as a
    two's complement number. *)
Definition int32_of_int64 (z : Z) : Z := (z + 2 ^ 31) mod 2 ^ 32 - 2 ^ 31.

End mathx.

(* ===================================================================== *)
(** ** strconv.ParseUint and strconv.ParseInt *)
(* ===================================================================== *)

Module strconv.
Import mathx.

Inductive NumError : Set :=
| ErrSyntax
| ErrRange
| ErrBase
| ErrBitSize.

Definition byte_val (c : ascii) : Z := Z.of_N (N_of_ascii c).

(** [lower(c) = c | ('x' - 'X')]. *)
Definition lower (c : ascii) : Z := Z.lor (byte_val c) 32.

(** The digit a byte stands for, in any base: ['0'..'9'] are 0..9 and
    letters of either case are 10..35; [None] is the [default:] case of
    the switch in [ParseUint]. *)
Definition digitVal (c : ascii) : option Z :=
  if (48 <=? byte_val c) && (byte_val c <=? 57) then Some (byte_val c - 48)
  else if (97 <=? lower c) && (lower c <=? 122) then Some (lower c - 97 + 10)
  else None.

(** The loop of [ParseUint] over the bytes of [s], with [n] the value
    accumulated so far.  The result is Go's pair (value, error). *)
Fixpoint parseLoop (base cutoff maxVal : Z) (s : string) (n : Z)
  : Z * option NumError :=
  match s with
  | EmptyString => (n, None)
  | String c rest =>
      match digitVal c with
      | None => (0, Some ErrSyntax)
      | Some d =>
          if base <=? d then (0, Some ErrSyntax)
          else if cutoff <=? n then (maxVal, Some ErrRange)
          else
            let n' := wrap_uint64 (n * base) in
            let n1 := wrap_uint64 (n' + d) in
            if (n1 <? n') || (maxVal <? n1) then (maxVal, Some ErrRange)
            else parseLoop base cutoff maxVal rest n1
      end
  end.

(** [strconv.ParseUint(s, base, bitSize)] for an explicit base
    [2 <= base <= 36] and [1 <= bitSize <= 64].  Base 0 (the base taken
    from a prefix of [s], with underscores) is never used by the plugin
    and is left out: it is answered like an invalid base here. *)
Definition ParseUint (s : string) (base bitSize : Z) : Z * option NumError :=
  if String.eqb s "" then (0, Some ErrSyntax)
  else if negb ((2 <=? base) && (base <=? 36)) then (0, Some ErrBase)
  else if negb ((1 <=? bitSize) && (bitSize <=? 64)) then (0, Some ErrBitSize)
  else
    let cutoff := maxUint64 / base + 1 in
    let maxVal := 2 ^ bitSize - 1 in
    parseLoop base cutoff maxVal s 0.

(** [strconv.ParseInt(s, base, bitSize)], same restrictions. *)
Definition ParseInt (s : string) (base bitSize : Z) : Z * option NumError :=
  match s with
  | EmptyString => (0, Some ErrSyntax)
  | String c0 rest =>
      let neg := Ascii.eqb c0 "-"%char in
      let s' := if Ascii.eqb c0 "+"%char then rest
                else if Ascii.eqb c0 "-"%char then rest else s in
      match ParseUint s' base bitSize with
      | (_, Some ErrSyntax) => (0, Some ErrSyntax)
      | (_, Some ErrBase) => (0, Some ErrBase)
      | (_, Some ErrBitSize) => (0, Some ErrBitSize)
      | (un, _) =>
          let cutoff := 2 ^ (bitSize - 1) in
          if negb neg && (cutoff <=? un) then (cutoff - 1, Some ErrRange)
          else if neg && (cutoff <? un) then (- cutoff, Some ErrRange)
          else (if neg then - un else un, None)
      end
  end.

(** The values of [cutoff] and [maxVal] in [ParseUint] for base 10 and
    32 bits. *)
Definition cutoff10 : Z := 1844674407370955162.
Definition maxVal32 : Z := 4294967295.

End strconv.

(* ===================================================================== *)
(** ** fmt: the [%d] verb *)
(* ===================================================================== *)

Module fmt.

(** [%d] of an integer: its decimal digits, with a leading [-] when it
    is negative. *)
Definition formatInt (z : Z) : string := NilZero.string_of_int (Z.to_int z).

End fmt.

(* ===================================================================== *)
(** ** The Kubernetes API objects the plugin reads *)
(* ===================================================================== *)

(** A Go [error]: what its [Error()] method prints. *)
Record error : Set := mkError { errorText : string }.

(** The [(value, err)] pair returned by a lister. *)
Inductive result (A : Type) : Type :=
| Ok (a : A)
| Err (e : error).
Arguments Ok {A} a.
Arguments Err {A} e.

Module metav1.

Record OwnerReference : Set := mkOwnerReference {
  Kind : string;
  UID : string;
  Name : string
}.

End metav1.

Module v1.

(** [type PodPhase string]. *)
Definition PodPhase : Set := string.
Definition PodPending : PodPhase := "Pending".
Definition PodRunning : PodPhase := "Running".
Definition PodSucceeded : PodPhase := "Succeeded".
Definition PodFailed : PodPhase := "Failed".
Definition PodUnknown : PodPhase := "Unknown".

(** The fields of a pod that the plugin reads: [Namespace] and
    [OwnerReferences] of its metadata, [Spec.NodeName], [Status.Phase]. *)
Record Pod : Set := mkPod {
  Namespace : string;
  OwnerReferences : list metav1.OwnerReference;
  NodeName : string;
  Phase : PodPhase
}.

Record Node : Set := mkNode { Name : string }.

End v1.

Module appsv1.

(** [Spec.Replicas] is a [*int32]: [None] is the nil pointer. *)
Record ReplicaSet : Type := mkReplicaSet {
  rsReplicas : option Z;
  rsAnnotations : gmap string string
}.

Record StatefulSet : Type := mkStatefulSet {
  stsReplicas : option Z;
  stsAnnotations : gmap string string
}.

End appsv1.

Module batchv1.

(** [Spec.Parallelism] is a [*int32]. *)
Record Job : Type := mkJob {
  jobParallelism : option Z;
  jobAnnotations : gmap string string
}.

(** [Spec.JobTemplate.Spec.Parallelism] is a [*int32]. *)
Record CronJob : Type := mkCronJob {
  cjParallelism : option Z;
  cjAnnotations : gmap string string
}.

End batchv1.

(* ===================================================================== *)
(** ** The scheduler framework *)
(* ===================================================================== *)

Module framework.

Inductive Code : Set :=
| Success
| Error
| Unschedulable
| UnschedulableAndUnresolvable
| Wait
| Skip
| Pending.

Record Status : Set := mkStatus {
  code : Code;
  reasons : list string
}.

(** [framework.NewStatus(code, reasons...)]. *)
Definition NewStatus (c : Code) (rs : list string) : Status := mkStatus c rs.

(** [nodeInfo.Node()] is the node under evaluation; the framework calls
    [Filter] with a node set. *)
Record NodeInfo : Set := mkNodeInfo { Node : v1.Node }.

Record CycleState : Set := mkCycleState { }.

End framework.

(** A [context.Context], as far as a callee can observe it: [Err()] is
    nil while the context is live and [context.Canceled] or
    [context.DeadlineExceeded] afterwards. *)
Module context.

Record Context : Set := mkContext { Err : option error }.

Definition Background : Context := mkContext None.
Definition Canceled : error := mkError "context canceled".
Definition DeadlineExceeded : error := mkError "context deadline exceeded".

End context.

(* ===================================================================== *)
(** ** Package controllerspread *)
(* ===================================================================== *)

Module controllerspread.
Import mathx.

(** The unique name of the plugin (the constant [Name] of the package). *)
Definition PluginName : string := "ControllerSpreadFilter".

(** Annotation key for minimum distinct hosts. *)
Definition minHostsAnnotationKey : string :=
  "controller-spread-scheduler/min-hosts".

Record ControllerSpreadArgs : Set := mkControllerSpreadArgs { }.

(** [type ControllerType string]. *)
Definition ControllerType : Set := string.
Definition ReplicaSetType : ControllerType := "ReplicaSet".
Definition StatefulSetType : ControllerType := "StatefulSet".
Definition JobType : ControllerType := "Job".
Definition CronJobType : ControllerType := "CronJob".

(** Identifying information about a controller ([Type_] is the field
    [Type] of the source). *)
Record ControllerInfo : Set := mkControllerInfo {
  Type_ : ControllerType;
  UID : string;
  Name : string
}.

(** *** The stores and the log of reads *)

(** The plugin with its five listers.  A lister is an in-memory cache:
    [rsLister ns name] is the answer of
    [rsLister.ReplicaSets(ns).Get(name)], and [podLister ns] that of
    [podLister.Pods(ns).List(labels.Everything())]. *)
Record ControllerSpreadFilter : Type := mkControllerSpreadFilter {
  podLister : string -> result (list v1.Pod);
  rsLister : string -> string -> result appsv1.ReplicaSet;
  stsLister : string -> string -> result appsv1.StatefulSet;
  jobLister : string -> string -> result batchv1.Job;
  cronJobLister : string -> string -> result batchv1.CronJob;
  args : ControllerSpreadArgs
}.

(** One query to a store. *)
Inductive StoreRead : Set :=
| GetReplicaSet (ns name : string)
| GetStatefulSet (ns name : string)
| GetJob (ns name : string)
| GetCronJob (ns name : string)
| ListPods (ns : string).

(** A computation that queries the stores: its value and the queries it
    made, in order. *)
Definition Reads (A : Type) : Type := A * list StoreRead.

Definition ret {A : Type} (a : A) : Reads A := (a, []).

Definition bind {A B : Type} (m : Reads A) (k : A -> Reads B) : Reads B :=
  (fst (k (fst m)), (snd m ++ snd (k (fst m)))%list).

Notation "'let*' x ':=' m 'in' k" := (bind m (fun x => k))
  (at level 10, x name, m at level 100, k at level 200).

Definition getReplicaSet (csf : ControllerSpreadFilter) (ns name : string)
  : Reads (result appsv1.ReplicaSet) :=
  (rsLister csf ns name, [GetReplicaSet ns name]).

Definition getStatefulSet (csf : ControllerSpreadFilter) (ns name : string)
  : Reads (result appsv1.StatefulSet) :=
  (stsLister csf ns name, [GetStatefulSet ns name]).

Definition getJob (csf : ControllerSpreadFilter) (ns name : string)
  : Reads (result batchv1.Job) :=
  (jobLister csf ns name, [GetJob ns name]).

Definition getCronJob (csf : ControllerSpreadFilter) (ns name : string)
  : Reads (result batchv1.CronJob) :=
  (cronJobLister csf ns name, [GetCronJob ns name]).

Definition listPods (csf : ControllerSpreadFilter) (ns : string)
  : Reads (result (list v1.Pod)) :=
  (podLister csf ns, [ListPods ns]).

(** *** getControllerInfo *)

(** The loop of [getControllerInfo] over [pod.OwnerReferences]. *)
Fixpoint getControllerInfoFrom (refs : list metav1.OwnerReference)
  : option ControllerInfo :=
  match refs with
  | [] => None
  | ownerRef :: rest =>
      if String.eqb (metav1.UID ownerRef) ""
         || String.eqb (metav1.Name ownerRef) ""
      then getControllerInfoFrom rest
      else if String.eqb (metav1.Kind ownerRef) ReplicaSetType then
        Some (mkControllerInfo ReplicaSetType
                (metav1.UID ownerRef) (metav1.Name ownerRef))
      else if String.eqb (metav1.Kind ownerRef) StatefulSetType then
        Some (mkControllerInfo StatefulSetType
                (metav1.UID ownerRef) (metav1.Name ownerRef))
      else if String.eqb (metav1.Kind ownerRef) JobType then
        Some (mkControllerInfo JobType
                (metav1.UID ownerRef) (metav1.Name ownerRef))
      else if String.eqb (metav1.Kind ownerRef) CronJobType then
        Some (mkControllerInfo CronJobType
                (metav1.UID ownerRef) (metav1.Name ownerRef))
      else getControllerInfoFrom rest
  end.

(** [getControllerInfo] extracts controller information from a pod's
    owner references; [None] is the result [(ControllerInfo{}, false)]. *)
Definition getControllerInfo (pod : v1.Pod) : option ControllerInfo :=
  getControllerInfoFrom (v1.OwnerReferences pod).

(** *** parseMinHostsAnnotation and min *)

(** Parses the annotation value into an int32; defaults to 2. *)
Definition parseMinHostsAnnotation (val : string) : Z :=
  match strconv.ParseInt val 10 32 with
  | (parsed, None) =>
      if (2 <=? parsed) && (parsed <=? MaxInt32)
      then int32_of_int64 parsed
      else 2
  | (_, Some _) => 2
  end.

(** The smaller of two int32 values. *)
Definition min (a b : Z) : Z := if a <? b then a else b.

(** *** isOwnedByController *)

Definition isOwnedByController (pod : v1.Pod) (controller : ControllerInfo)
  : bool :=
  existsb
    (fun ownerRef =>
       String.eqb (metav1.Kind ownerRef) (Type_ controller)
       && String.eqb (metav1.UID ownerRef) (UID controller))
    (v1.OwnerReferences pod).

(** *** Filter *)

(** The [switch controller.Type] of [Filter] (the fetch of the
    controller object): either the status [Filter] returns from inside
    the switch, or the values of [desired] and [annotations] after it. *)
Definition fetchController (csf : ControllerSpreadFilter) (pod : v1.Pod)
    (controller : ControllerInfo)
  : Reads (framework.Status + Z * gmap string string) :=
  if String.eqb (Type_ controller) ReplicaSetType then
    let* r := getReplicaSet csf (v1.Namespace pod) (Name controller) in
    match r with
    | Err err => ret (inl (framework.NewStatus framework.Success []))
    | Ok rs =>
        ret (inr (match appsv1.rsReplicas rs with
                  | Some replicas => replicas
                  | None => 1
                  end, appsv1.rsAnnotations rs))
    end
  else if String.eqb (Type_ controller) StatefulSetType then
    let* r := getStatefulSet csf (v1.Namespace pod) (Name controller) in
    match r with
    | Err err => ret (inl (framework.NewStatus framework.Success []))
    | Ok sts =>
        ret (inr (match appsv1.stsReplicas sts with
                  | Some replicas => replicas
                  | None => 1
                  end, appsv1.stsAnnotations sts))
    end
  else if String.eqb (Type_ controller) JobType then
    let* r := getJob csf (v1.Namespace pod) (Name controller) in
    match r with
    | Err err => ret (inl (framework.NewStatus framework.Success []))
    | Ok job =>
        ret (inr (match batchv1.jobParallelism job with
                  | Some parallelism => parallelism
                  | None => 1
                  end, batchv1.jobAnnotations job))
    end
  else if String.eqb (Type_ controller) CronJobType then
    let* r := getCronJob csf (v1.Namespace pod) (Name controller) in
    match r with
    | Err err => ret (inl (framework.NewStatus framework.Success []))
    | Ok cj =>
        ret (inr (match batchv1.cjParallelism cj with
                  | Some parallelism => parallelism
                  | None => 1
                  end, batchv1.cjAnnotations cj))
    end
  else ret (inl (framework.NewStatus framework.Success [])).

(** [minHostsVal] after the annotation lookup of [Filter]. *)
Definition minHostsOf (annotations : gmap string string) : Z :=
  match annotations !! minHostsAnnotationKey with
  | Some val => parseMinHostsAnnotation val
  | None => 2
  end.

(** [requiredHosts := min(desired, minHostsVal)]. *)
Definition requiredHostsOf (desired : Z) (annotations : gmap string string)
  : Z :=
  min desired (minHostsOf annotations).

(** The first loop over [allPods]: the pods of the controller that are
    Running or Pending, in the order of the listing. *)
Definition controllerPodsOf (allPods : list v1.Pod)
    (controller : ControllerInfo) : list v1.Pod :=
  List.filter
    (fun p =>
       isOwnedByController p controller
       && (String.eqb (v1.Phase p) v1.PodRunning
           || String.eqb (v1.Phase p) v1.PodPending))
    allPods.

(** The second loop: [nodeSet] after inserting the non-empty node names
    of [controllerPods] into [sets.NewString()]. *)
Definition nodeSetOf (controllerPods : list v1.Pod) : gset string :=
  fold_left
    (fun (nodeSet : gset string) p =>
       if negb (String.eqb (v1.NodeName p) "")
       then {[ v1.NodeName p ]} ∪ nodeSet
       else nodeSet)
    controllerPods ∅.

(** [nodeSet.Has(name)]. *)
Definition Has (nodeSet : gset string) (name : string) : bool :=
  bool_decide (name ∈ nodeSet).

(** [effectiveSpread] after the conditional increment.  It is a Go
    [int] counting the keys of an in-memory set, far below [2^63]: the
    increment does not wrap. *)
Definition effectiveSpreadOf (nodeSet : gset string) (nodeName : string)
  : Z :=
  let effectiveSpread := Z.of_nat (size nodeSet) in
  if negb (Has nodeSet nodeName) then effectiveSpread + 1
  else effectiveSpread.

(** The reason of a rejection:
    [fmt.Sprintf("must schedule across at least %d distinct nodes", requiredHosts)]. *)
Definition rejectReason (requiredHosts : Z) : string :=
  "must schedule across at least " +:+ fmt.formatInt requiredHosts
  +:+ " distinct nodes".

(** The end of [Filter], from [effectiveSpread := nodeSet.Len()] on. *)
Definition spreadStatus (requiredHosts : Z) (nodeSet : gset string)
    (nodeName : string) : framework.Status :=
  let effectiveSpread := effectiveSpreadOf nodeSet nodeName in
  if effectiveSpread <? requiredHosts then
    framework.NewStatus framework.Unschedulable [rejectReason requiredHosts]
  else framework.NewStatus framework.Success [].

(** The cause of a pod-list failure:
    [fmt.Sprintf("error listing pods: %v", err)]. *)
Definition listErrorReason (err : error) : string :=
  "error listing pods: " +:+ errorText err.

(** [Filter] is invoked during scheduling.  [ctx] and [cycleState] are
    parameters of the method that its body never uses.  The [klog]
    calls write log lines only and are left out. *)
Definition Filter (csf : ControllerSpreadFilter) (ctx : context.Context)
    (cycleState : framework.CycleState) (pod : v1.Pod)
    (nodeInfo : framework.NodeInfo) : Reads framework.Status :=
  match getControllerInfo pod with
  | None => ret (framework.NewStatus framework.Success [])
  | Some controller =>
      let* fetched := fetchController csf pod controller in
      match fetched with
      | inl status => ret status
      | inr (desired, annotations) =>
          let requiredHosts := requiredHostsOf desired annotations in
          if desired <=? 1 then ret (framework.NewStatus framework.Success [])
          else
            let* listed := listPods csf (v1.Namespace pod) in
            match listed with
            | Err err =>
                ret (framework.NewStatus framework.Error
                       [listErrorReason err])
            | Ok allPods =>
                let controllerPods := controllerPodsOf allPods controller in
                if (length controllerPods <=? 1)%nat then
                  ret (framework.NewStatus framework.Success [])
                else
                  let nodeSet := nodeSetOf controllerPods in
                  ret (spreadStatus requiredHosts nodeSet
                         (v1.Name (framework.Node nodeInfo)))
            end
      end
  end.

(** The verdict of an invocation and the store reads it made. *)
Definition verdict (r : Reads framework.Status) : framework.Status := fst r.
Definition reads (r : Reads framework.Status) : list StoreRead := snd r.

End controllerspread.

(* ===================================================================== *)
(** ** Vocabulary of the specification *)
(* ===================================================================== *)

Module spec.
Import mathx controllerspread.

(** *** Base-10 integers

    What the specification calls "parse as a base-10 integer": an
    optional sign followed by one or more decimal digits, read as an
    integer of any size.  This definition follows the specification; it
    is compared with [strconv.ParseInt] below. *)

Definition isDecimalDigit (c : ascii) : bool :=
  (48 <=? strconv.byte_val c) && (strconv.byte_val c <=? 57).

Fixpoint digitsValue (s : string) (acc : Z) : option Z :=
  match s with
  | EmptyString => Some acc
  | String c rest =>
      if isDecimalDigit c
      then digitsValue rest (10 * acc + (strconv.byte_val c - 48))
      else None
  end.

Definition unsignedDecimal (s : string) : option Z :=
  match s with
  | EmptyString => None
  | String _ _ => digitsValue s 0
  end.

Definition decimalInteger (s : string) : option Z :=
  match s with
  | EmptyString => None
  | String c rest =>
      if Ascii.eqb c "+"%char then unsignedDecimal rest
      else if Ascii.eqb c "-"%char then Z.opp <$> unsignedDecimal rest
      else unsignedDecimal s
  end.

(** The override as the specification words it: the parsed integer when
    the annotation is present, parses and is at least 2, with no upper
    bound; 2 otherwise. *)
Definition unboundedOverride (annotations : gmap string string) : Z :=
  match annotations !! minHostsAnnotationKey with
  | Some val =>
      match decimalInteger val with
      | Some n => if 2 <=? n then n else 2
      | None => 2
      end
  | None => 2
  end.

(** The override with the int32 bound: the parsed integer when the
    annotation is present, parses and lies between 2 and [MaxInt32];
    2 otherwise. *)
Definition int32Override (annotations : gmap string string) : Z :=
  match annotations !! minHostsAnnotationKey with
  | Some val =>
      match decimalInteger val with
      | Some n => if (2 <=? n) && (n <=? MaxInt32) then n else 2
      | None => 2
      end
  | None => 2
  end.

(** *** Owners and siblings *)

(** An owner reference the resolver accepts: a recognized kind, and a
    non-empty identifier and name. *)
Definition RecognizedKind (kind : string) : Prop :=
  kind = "ReplicaSet" ∨ kind = "StatefulSet" ∨ kind = "Job"
  ∨ kind = "CronJob".

Definition Eligible (o : metav1.OwnerReference) : Prop :=
  RecognizedKind (metav1.Kind o)
  ∧ metav1.UID o ≠ "" ∧ metav1.Name o ≠ "".

(** The controller reference made from an owner reference. *)
Definition referenceOf (o : metav1.OwnerReference) : ControllerInfo :=
  mkControllerInfo (metav1.Kind o) (metav1.UID o) (metav1.Name o).

(** Some owner reference of the pod has the kind and the identifier of
    the controller reference. *)
Definition OwnedBy (p : v1.Pod) (c : ControllerInfo) : Prop :=
  ∃ o, o ∈ v1.OwnerReferences p
       ∧ metav1.Kind o = Type_ c ∧ metav1.UID o = UID c.

Definition Active (p : v1.Pod) : Prop :=
  v1.Phase p = "Pending" ∨ v1.Phase p = "Running".

(** A sibling: owned by the controller and Pending or Running. *)
Definition Sibling (c : ControllerInfo) (p : v1.Pod) : Prop :=
  OwnedBy p c ∧ Active p.

#[global] Instance RecognizedKind_dec kind : Decision (RecognizedKind kind).
Proof. unfold RecognizedKind. apply _. Defined.

#[global] Instance Eligible_dec o : Decision (Eligible o).
Proof. unfold Eligible. apply _. Defined.

#[global] Instance OwnedBy_dec p c : Decision (OwnedBy p c).
Proof.
  unfold OwnedBy.
  destruct (decide (Exists (λ o, metav1.Kind o = Type_ c
                                  ∧ metav1.UID o = UID c)
                      (v1.OwnerReferences p))) as [H|H].
  - left. apply Exists_exists in H. destruct H as (o & ? & ? & ?). eauto.
  - right. intros (o & ? & ? & ?). apply H, Exists_exists. eauto.
Defined.

#[global] Instance Active_dec p : Decision (Active p).
Proof. unfold Active. apply _. Defined.

#[global] Instance Sibling_dec c p : Decision (Sibling c p).
Proof. unfold Sibling. apply _. Defined.

(** *** The controller stores *)

(** The store of the controller's kind holds an object under the
    controller's name in namespace [ns], whose count field (1 when it is
    unset) is [desired] and whose annotations are [annotations]. *)
Inductive Resolves (csf : ControllerSpreadFilter) (ns : string)
    (c : ControllerInfo) : Z -> gmap string string -> Prop :=
| resolves_rs rs :
    Type_ c = "ReplicaSet" ->
    rsLister csf ns (Name c) = Ok rs ->
    Resolves csf ns c (default 1 (appsv1.rsReplicas rs))
      (appsv1.rsAnnotations rs)
| resolves_sts sts :
    Type_ c = "StatefulSet" ->
    stsLister csf ns (Name c) = Ok sts ->
    Resolves csf ns c (default 1 (appsv1.stsReplicas sts))
      (appsv1.stsAnnotations sts)
| resolves_job job :
    Type_ c = "Job" ->
    jobLister csf ns (Name c) = Ok job ->
    Resolves csf ns c (default 1 (batchv1.jobParallelism job))
      (batchv1.jobAnnotations job)
| resolves_cj cj :
    Type_ c = "CronJob" ->
    cronJobLister csf ns (Name c) = Ok cj ->
    Resolves csf ns c (default 1 (batchv1.cjParallelism cj))
      (batchv1.cjAnnotations cj).

(** The lookup of the controller in the store of its kind fails. *)
Inductive LookupFails (csf : ControllerSpreadFilter) (ns : string)
    (c : ControllerInfo) : Prop :=
| fails_rs err :
    Type_ c = "ReplicaSet" ->
    rsLister csf ns (Name c) = Err err -> LookupFails csf ns c
| fails_sts err :
    Type_ c = "StatefulSet" ->
    stsLister csf ns (Name c) = Err err -> LookupFails csf ns c
| fails_job err :
    Type_ c = "Job" ->
    jobLister csf ns (Name c) = Err err -> LookupFails csf ns c
| fails_cj err :
    Type_ c = "CronJob" ->
    cronJobLister csf ns (Name c) = Err err -> LookupFails csf ns c.

(** The read of the controller store made for a controller. *)
Definition controllerRead (ns : string) (c : ControllerInfo) : StoreRead :=
  if String.eqb (Type_ c) ReplicaSetType then GetReplicaSet ns (Name c)
  else if String.eqb (Type_ c) StatefulSetType then
    GetStatefulSet ns (Name c)
  else if String.eqb (Type_ c) JobType then GetJob ns (Name c)
  else GetCronJob ns (Name c).

End spec.

(* ===================================================================== *)
(** ** Concrete clusters *)
(* ===================================================================== *)

Module cluster.
Import controllerspread.

Definition notFound (kind name : string) : error :=
  mkError (kind +:+ " " +:+ name +:+ " not found").

(** A store of objects of one kind, from an association list. *)
Definition storeOf {A : Type} (kind : string)
    (objects : list (string * string * A)) (ns name : string) : result A :=
  match List.find (fun e => String.eqb (fst (fst e)) ns
                            && String.eqb (snd (fst e)) name) objects with
  | Some e => Ok (snd e)
  | None => Err (notFound kind name)
  end.

Definition podsOf (pods : list v1.Pod) (ns : string)
  : result (list v1.Pod) :=
  Ok (List.filter (fun p => String.eqb (v1.Namespace p) ns) pods).

Definition mkCluster (pods : list v1.Pod)
    (rss : list (string * string * appsv1.ReplicaSet))
    (stss : list (string * string * appsv1.StatefulSet))
    (jobs : list (string * string * batchv1.Job))
    (cjs : list (string * string * batchv1.CronJob))
  : ControllerSpreadFilter :=
  mkControllerSpreadFilter (podsOf pods)
    (storeOf "replicaset" rss) (storeOf "statefulset" stss)
    (storeOf "job" jobs) (storeOf "cronjob" cjs) mkControllerSpreadArgs.

(** The same cluster with an unreadable pod store. *)
Definition withPodListError (csf : ControllerSpreadFilter) (err : error)
  : ControllerSpreadFilter :=
  mkControllerSpreadFilter (fun _ => Err err)
    (rsLister csf) (stsLister csf) (jobLister csf) (cronJobLister csf)
    (args csf).

Definition nodeNamed (name : string) : framework.NodeInfo :=
  framework.mkNodeInfo (v1.mkNode name).

Definition cycle : framework.CycleState := framework.mkCycleState.

Definition canceledCtx : context.Context :=
  context.mkContext (Some context.Canceled).

(** A ReplicaSet [web] with three replicas and no annotation; one
    replica runs on [n1], and a second one is pending, not yet placed. *)
Definition webOwner : metav1.OwnerReference :=
  metav1.mkOwnerReference "ReplicaSet" "uid-web" "web".

Definition webPod (node phase : string) : v1.Pod :=
  v1.mkPod "default" [webOwner] node phase.

Definition webPending : v1.Pod := webPod "" "Pending".

Definition webCluster : ControllerSpreadFilter :=
  mkCluster [webPod "n1" "Running"; webPending]
    [("default", "web", appsv1.mkReplicaSet (Some 3) ∅)] [] [] [].

(** The same ReplicaSet asking for more hosts than an int32 holds. *)
Definition greedyCluster : ControllerSpreadFilter :=
  mkCluster [webPod "n1" "Running"; webPod "n2" "Running"; webPending]
    [("default", "web",
      appsv1.mkReplicaSet (Some 3)
        {[ minHostsAnnotationKey := "2147483648" ]})] [] [] [].

(** A StatefulSet [db] with five replicas and [min-hosts] 3; replicas run
    on [n1] and [n2], a third is pending. *)
Definition dbOwner : metav1.OwnerReference :=
  metav1.mkOwnerReference "StatefulSet" "uid-db" "db".

Definition dbPod (node phase : string) : v1.Pod :=
  v1.mkPod "default" [dbOwner] node phase.

Definition dbCluster : ControllerSpreadFilter :=
  mkCluster [dbPod "n1" "Running"; dbPod "n2" "Running"; dbPod "" "Pending"]
    []
    [("default", "db",
      appsv1.mkStatefulSet (Some 5) {[ minHostsAnnotationKey := "3" ]})]
    [] [].

(** A Job [batch] with parallelism 4 and [min-hosts] 1. *)
Definition batchOwner : metav1.OwnerReference :=
  metav1.mkOwnerReference "Job" "uid-batch" "batch".

Definition batchPod (node phase : string) : v1.Pod :=
  v1.mkPod "default" [batchOwner] node phase.

Definition batchCluster : ControllerSpreadFilter :=
  mkCluster [batchPod "n1" "Running"; batchPod "" "Pending"] [] []
    [("default", "batch",
      batchv1.mkJob (Some 4) {[ minHostsAnnotationKey := "1" ]})] [].

(** A ReplicaSet [solo] whose replica count is unset. *)
Definition soloOwner : metav1.OwnerReference :=
  metav1.mkOwnerReference "ReplicaSet" "uid-solo" "solo".

Definition soloPod : v1.Pod := v1.mkPod "default" [soloOwner] "" "Pending".

Definition soloCluster : ControllerSpreadFilter :=
  mkCluster [soloPod; v1.mkPod "default" [soloOwner] "n1" "Running"]
    [("default", "solo",
      appsv1.mkReplicaSet None {[ minHostsAnnotationKey := "9" ]})] [] [] [].

(** The ReplicaSet [web] with one replica running on [n1], one that has
    finished there, and a pod of another controller. *)
Definition loneCluster : ControllerSpreadFilter :=
  mkCluster [webPod "n1" "Running"; webPod "n1" "Succeeded";
             v1.mkPod "default" [soloOwner] "n1" "Running"]
    [("default", "web", appsv1.mkReplicaSet (Some 3) ∅)] [] [] [].

(** A cluster with no controller object at all. *)
Definition emptyCluster : ControllerSpreadFilter := mkCluster [] [] [] [] [].

Definition barePod : v1.Pod := v1.mkPod "default" [] "" "Pending".

End cluster.

(* ===================================================================== *)
(** ** Further vocabulary: decimal numerals, reads, pod listings *)
(* ===================================================================== *)

Module decimal.

(** The value of a decimal numeral of the standard library, read most
    significant digit first after the digits already read ([acc]). *)
Fixpoint uintValue (d : Decimal.uint) (acc : Z) : Z :=
  match d with
  | Decimal.Nil => acc
  | Decimal.D0 l => uintValue l (10 * acc + 0)
  | Decimal.D1 l => uintValue l (10 * acc + 1)
  | Decimal.D2 l => uintValue l (10 * acc + 2)
  | Decimal.D3 l => uintValue l (10 * acc + 3)
  | Decimal.D4 l => uintValue l (10 * acc + 4)
  | Decimal.D5 l => uintValue l (10 * acc + 5)
  | Decimal.D6 l => uintValue l (10 * acc + 6)
  | Decimal.D7 l => uintValue l (10 * acc + 7)
  | Decimal.D8 l => uintValue l (10 * acc + 8)
  | Decimal.D9 l => uintValue l (10 * acc + 9)
  end.

End decimal.

Module fleet.
Import controllerspread.

(** The namespace a store read is made in. *)
Definition readNamespace (r : StoreRead) : string :=
  match r with
  | GetReplicaSet ns _ => ns
  | GetStatefulSet ns _ => ns
  | GetJob ns _ => ns
  | GetCronJob ns _ => ns
  | ListPods ns => ns
  end.

(** The same plugin over a pod store that lists [pods] in every
    namespace. *)
Definition withPodList (csf : ControllerSpreadFilter) (pods : list v1.Pod)
  : ControllerSpreadFilter :=
  mkControllerSpreadFilter (fun _ => Ok pods)
    (rsLister csf) (stsLister csf) (jobLister csf) (cronJobLister csf)
    (args csf).


(** The ReplicaSet [web] asking for three hosts, with replicas on [n1],
    [n2] and [n3] and one pending. *)
Definition spreadCluster : ControllerSpreadFilter :=
  cluster.mkCluster [cluster.webPod "n1" "Running"; cluster.webPod "n2" "Running";
             cluster.webPod "n3" "Running"; cluster.webPending]
    [("default", "web",
      appsv1.mkReplicaSet (Some 5) {[ minHostsAnnotationKey := "3" ]})]
    [] [] [].

End fleet.

(* ===================================================================== *)
(** ** strconv.ParseInt reads base-10 integers that fit in 32 bits *)
(* ===================================================================== *)

Module strconv_facts.
Import mathx strconv spec.

Lemma digitVal_decimal (c : ascii) :
  isDecimalDigit c = true ->
  digitVal c = Some (byte_val c - 48) /\ 0 <= byte_val c - 48 < 10.
Proof.
  unfold isDecimalDigit, digitVal. intros H. rewrite H. split; [easy|].
  apply andb_true_iff in H. lia.
Qed.

Lemma digitVal_letter (c : ascii) (d : Z) :
  isDecimalDigit c = false -> digitVal c = Some d -> 10 <= d.
Proof.
  unfold isDecimalDigit, digitVal. intros H. rewrite H.
  destruct ((97 <=? lower c) && (lower c <=? 122)) eqn:E; [|discriminate].
  intros [= <-]. apply andb_true_iff in E. lia.
Qed.

Lemma digitsValue_ge (s : string) :
  forall n v, 0 <= n -> digitsValue s n = Some v -> n <= v.
Proof.
  induction s as [|c rest IH]; simpl; intros n v Hn H.
  - injection H as <-. lia.
  - destruct (isDecimalDigit c) eqn:E; [|discriminate].
    destruct (digitVal_decimal c E) as [_ Hd].
    apply IH in H; lia.
Qed.

(** The loop of [ParseUint], base 10 and 32 bits, against the decimal
    reading of the same bytes. *)
Lemma parseLoop_decimal (s : string) :
  forall n, 0 <= n <= maxVal32 ->
    match digitsValue s n with
    | Some v =>
        if v <=? maxVal32
        then parseLoop 10 cutoff10 maxVal32 s n = (v, None)
        else parseLoop 10 cutoff10 maxVal32 s n = (maxVal32, Some ErrRange)
    | None =>
        parseLoop 10 cutoff10 maxVal32 s n = (0, Some ErrSyntax)
        \/ parseLoop 10 cutoff10 maxVal32 s n = (maxVal32, Some ErrRange)
    end.
Proof.
  unfold maxVal32, cutoff10.
  induction s as [|c rest IH]; intros n Hn; simpl.
  - destruct (Z.leb_spec n 4294967295); [reflexivity | lia].
  - destruct (isDecimalDigit c) eqn:E.
    + destruct (digitVal_decimal c E) as [-> Hd].
      set (d := byte_val c - 48) in *.
      destruct (Z.leb_spec 10 d); [lia|].
      destruct (Z.leb_spec 1844674407370955162 n); [lia|].
      unfold wrap_uint64.
      rewrite (Z.mod_small (n * 10)) by lia.
      rewrite (Z.mod_small (n * 10 + d)) by lia.
      destruct (Z.ltb_spec (n * 10 + d) (n * 10)); [lia|].
      replace (10 * n + d) with (n * 10 + d) by lia.
      destruct (Z.ltb_spec 4294967295 (n * 10 + d)); simpl.
      * destruct (digitsValue rest (n * 10 + d)) as [v|] eqn:Ev; [|now right].
        apply digitsValue_ge in Ev; [|lia].
        destruct (Z.leb_spec v 4294967295); [lia | reflexivity].
      * apply IH. lia.
    + destruct (digitVal c) as [d|] eqn:Ed; [|now left].
      apply digitVal_letter in Ed; [|assumption].
      destruct (Z.leb_spec 10 d); [now left | lia].
Qed.

Lemma unsignedDecimal_nonneg (s : string) (v : Z) :
  unsignedDecimal s = Some v -> 0 <= v.
Proof.
  destruct s; [discriminate|]. unfold unsignedDecimal.
  intros H. apply digitsValue_ge in H; lia.
Qed.

Lemma ParseUint_decimal (s : string) :
  match unsignedDecimal s with
  | Some v =>
      if v <=? maxVal32
      then ParseUint s 10 32 = (v, None)
      else ParseUint s 10 32 = (maxVal32, Some ErrRange)
  | None =>
      ParseUint s 10 32 = (0, Some ErrSyntax)
      \/ ParseUint s 10 32 = (maxVal32, Some ErrRange)
  end.
Proof.
  destruct s as [|c rest]; [now left|].
  unfold unsignedDecimal, ParseUint.
  change (String c rest =? "")%string with false. cbv iota.
  change (negb ((2 <=? 10) && (10 <=? 36))) with false.
  change (negb ((1 <=? 32) && (32 <=? 64))) with false. cbv iota zeta.
  change (maxUint64 / 10 + 1) with cutoff10.
  change (2 ^ 32 - 1) with maxVal32.
  apply parseLoop_decimal. unfold maxVal32. lia.
Qed.

(** The part of [ParseInt] after the sign has been picked off. *)
Lemma ParseInt_after_sign (s' : string) (neg : bool) :
  let r := match ParseUint s' 10 32 with
           | (_, Some ErrSyntax) => (0, Some ErrSyntax)
           | (_, Some ErrBase) => (0, Some ErrBase)
           | (_, Some ErrBitSize) => (0, Some ErrBitSize)
           | (un, _) =>
               let cutoff := 2 ^ (32 - 1) in
               if negb neg && (cutoff <=? un) then (cutoff - 1, Some ErrRange)
               else if neg && (cutoff <? un) then (- cutoff, Some ErrRange)
               else (if neg then - un else un, None)
           end in
  match unsignedDecimal s' with
  | Some v =>
      if (MinInt32 <=? (if neg then - v else v))
         && ((if neg then - v else v) <=? MaxInt32)
      then r = (if neg then - v else v, None)
      else snd r = Some ErrRange
  | None => snd r = Some ErrSyntax \/ snd r = Some ErrRange
  end.
Proof.
  intros r. subst r.
  pose proof (ParseUint_decimal s') as HU.
  pose proof (unsignedDecimal_nonneg s') as Hpos.
  change (2 ^ (32 - 1)) with 2147483648.
  unfold MinInt32, MaxInt32, maxVal32 in *.
  destruct (unsignedDecimal s') as [v|].
  - specialize (Hpos v eq_refl).
    destruct (Z.leb_spec v 4294967295); rewrite HU; cbv zeta;
      destruct neg; simpl negb; simpl andb;
      repeat match goal with
             | |- context [Z.leb ?a ?b] => destruct (Z.leb_spec a b)
             | |- context [Z.ltb ?a ?b] => destruct (Z.ltb_spec a b)
             end; simpl; try reflexivity; lia.
  - destruct HU as [-> | ->]; [now left|]. right.
    destruct neg; reflexivity.
Qed.

(** [ParseInt(s, 10, 32)] succeeds exactly on the base-10 integers
    between [MinInt32] and [MaxInt32], and returns their value. *)
Lemma ParseInt_decimal (s : string) :
  match decimalInteger s with
  | Some v =>
      if (MinInt32 <=? v) && (v <=? MaxInt32)
      then ParseInt s 10 32 = (v, None)
      else snd (ParseInt s 10 32) = Some ErrRange
  | None =>
      snd (ParseInt s 10 32) = Some ErrSyntax
      \/ snd (ParseInt s 10 32) = Some ErrRange
  end.
Proof.
  destruct s as [|c rest]; [now left|].
  unfold decimalInteger, ParseInt.
  destruct (Ascii.eqb_spec c "+"%char) as [-> | Hplus].
  - change (Ascii.eqb "+" "-") with false. cbv zeta.
    apply (ParseInt_after_sign rest false).
  - destruct (Ascii.eqb_spec c "-"%char) as [-> | Hminus]; cbv zeta.
    + pose proof (ParseInt_after_sign rest true) as H. cbv zeta in H.
      destruct (unsignedDecimal rest); exact H.
    + apply (ParseInt_after_sign (String c rest) false).
Qed.

End strconv_facts.

(* ===================================================================== *)
(** ** Properties of the plugin *)
(* ===================================================================== *)

Import mathx controllerspread spec.

(** *** The spread policy *)

Lemma min_is_Zmin (a b : Z) : min a b = Z.min a b.
Proof. unfold min. destruct (Z.ltb_spec a b); lia. Qed.

Lemma int32_of_int64_id (z : Z) :
  MinInt32 <= z <= MaxInt32 -> int32_of_int64 z = z.
Proof.
  unfold MinInt32, MaxInt32, int32_of_int64. intros H.
  rewrite Z.mod_small; lia.
Qed.

(** [parseMinHostsAnnotation] in terms of the base-10 reading of the
    annotation value. *)
Lemma parseMinHostsAnnotation_decimal (val : string) :
  parseMinHostsAnnotation val =
  match decimalInteger val with
  | Some n => if (2 <=? n) && (n <=? MaxInt32) then n else 2
  | None => 2
  end.
Proof.
  unfold parseMinHostsAnnotation.
  pose proof (strconv_facts.ParseInt_decimal val) as H.
  destruct (decimalInteger val) as [v|].
  - destruct (Z.leb_spec MinInt32 v) as [Hlo|Hlo];
      destruct (Z.leb_spec v MaxInt32) as [Hhi|Hhi]; simpl in H.
    + rewrite H. destruct (Z.leb_spec 2 v); simpl; [|reflexivity].
      destruct (Z.leb_spec v MaxInt32); [|lia].
      apply int32_of_int64_id. lia.
    + destruct (strconv.ParseInt val 10 32) as [p [e|]]; [|discriminate].
      now rewrite andb_false_r.
    + destruct (strconv.ParseInt val 10 32) as [p [e|]]; [|discriminate].
      destruct (Z.leb_spec 2 v); [unfold MinInt32 in Hlo; lia | reflexivity].
    + unfold MinInt32, MaxInt32 in *. lia.
  - destruct (strconv.ParseInt val 10 32) as [p [e|]]; [reflexivity|].
    destruct H; discriminate.
Qed.

Lemma minHostsOf_int32Override (annotations : gmap string string) :
  minHostsOf annotations = int32Override annotations.
Proof.
  unfold minHostsOf, int32Override.
  destruct (annotations !! minHostsAnnotationKey); [|reflexivity].
  apply parseMinHostsAnnotation_decimal.
Qed.

(** C2, as amended: for every desired count and every annotation
    mapping, [requiredHosts = min(desiredCount, override)], where
    [override] is the base-10 value of the annotation
    [controller-spread-scheduler/min-hosts] when the annotation is
    present, parses, and its value is at least 2 and at most
    2147483647 (the largest int32), and [override = 2] when the
    annotation is absent, unparseable, below 2 or above 2147483647. *)
Theorem C2_required_hosts_int32 (desired : Z)
    (annotations : gmap string string) :
  requiredHostsOf desired annotations
  = Z.min desired (int32Override annotations)
  /\ 2 <= int32Override annotations <= MaxInt32.
Proof.
  split.
  - unfold requiredHostsOf.
    now rewrite min_is_Zmin, minHostsOf_int32Override.
  - unfold int32Override, MaxInt32.
    destruct (annotations !! minHostsAnnotationKey) as [val|]; [|lia].
    destruct (decimalInteger val) as [n|]; [|lia].
    destruct (Z.leb_spec 2 n); simpl; [|lia].
    destruct (Z.leb_spec n 2147483647); lia.
Qed.

(** C2, as stated, fails: with three desired replicas and the
    annotation value 2147483648, a base-10 integer above 2, the stated
    formula gives [min(3, 2147483648) = 3] and the code computes 2. *)
Lemma C2_no_upper_bound_counterexample :
  decimalInteger "2147483648" = Some 2147483648
  /\ Z.min 3 (unboundedOverride {[ minHostsAnnotationKey := "2147483648" ]})
     = 3
  /\ requiredHostsOf 3 {[ minHostsAnnotationKey := "2147483648" ]} = 2.
Proof. repeat split; vm_compute; reflexivity. Qed.

(** *** The admission decision *)

Lemma size_with_candidate (nodeSet : gset string) (nodeName : string) :
  Z.of_nat (size ({[ nodeName ]} ∪ nodeSet))
  = Z.of_nat (size nodeSet) + (if decide (nodeName ∈ nodeSet) then 0 else 1).
Proof.
  destruct (decide (nodeName ∈ nodeSet)) as [Hin|Hout].
  - rewrite (subseteq_union_1_L {[ nodeName ]} nodeSet)
      by (now apply singleton_subseteq_l).
    lia.
  - rewrite size_union by (now apply disjoint_singleton_l).
    rewrite size_singleton. lia.
Qed.

Lemma effectiveSpreadOf_eq (nodeSet : gset string) (nodeName : string) :
  effectiveSpreadOf nodeSet nodeName
  = Z.of_nat (size nodeSet) + (if decide (nodeName ∈ nodeSet) then 0 else 1).
Proof.
  unfold effectiveSpreadOf, Has.
  destruct (decide (nodeName ∈ nodeSet)) as [Hin|Hout].
  - rewrite bool_decide_eq_true_2 by assumption. simpl. lia.
  - rewrite bool_decide_eq_false_2 by assumption. reflexivity.
Qed.

Lemma append_length (a b : string) :
  String.length (a +:+ b) = (String.length a + String.length b)%nat.
Proof. induction a as [|c a IH]; simpl; [reflexivity | now rewrite IH]. Qed.

Lemma append_inv_tail (t x : string) :
  forall y, x +:+ t = y +:+ t -> x = y.
Proof.
  induction x as [|c x IH]; intros [|d y] H.
  - reflexivity.
  - apply (f_equal String.length) in H.
    rewrite !append_length in H. simpl in H. lia.
  - apply (f_equal String.length) in H.
    rewrite !append_length in H. simpl in H. lia.
  - simpl in H. injection H as -> H. f_equal. now apply IH.
Qed.

Lemma to_int_not_nil (z : Z) :
  Z.to_int z <> Decimal.Pos Decimal.Nil
  /\ Z.to_int z <> Decimal.Neg Decimal.Nil.
Proof.
  pose proof (DecimalZ.to_of (Z.to_int z)) as H.
  rewrite DecimalZ.of_to in H.
  split; intros E; rewrite E in H; discriminate H.
Qed.

(** The decimal writing of an integer determines it. *)
Lemma formatInt_inj (a b : Z) : fmt.formatInt a = fmt.formatInt b -> a = b.
Proof.
  unfold fmt.formatInt. intros H.
  apply (f_equal NilZero.int_of_string) in H.
  destruct (to_int_not_nil a), (to_int_not_nil b).
  rewrite !NilZero.isi in H by assumption.
  injection H as H. now apply DecimalZ.to_int_inj.
Qed.

(** The reason of a rejection determines the required host count. *)
Lemma rejectReason_inj (a b : Z) : rejectReason a = rejectReason b -> a = b.
Proof.
  unfold rejectReason. intros H.
  apply (inj (String.append "must schedule across at least ")) in H.
  apply append_inv_tail in H. now apply formatInt_inj.
Qed.

(** C1: for every placement snapshot, every requiredHosts and every
    candidate node, effectiveSpread is the size of the snapshot plus 1
    if the candidate is not in it and plus 0 if it is (which is the
    number of nodes once the candidate is added); the verdict is
    Unschedulable, with requiredHosts written in decimal in the reason
    (so that the reason determines it), exactly when
    effectiveSpread < requiredHosts, and Success otherwise. *)
Theorem C1_admission_decision (nodeSet : gset string) (requiredHosts : Z)
    (nodeName : string) :
  effectiveSpreadOf nodeSet nodeName
  = Z.of_nat (size nodeSet) + (if decide (nodeName ∈ nodeSet) then 0 else 1)
  /\ effectiveSpreadOf nodeSet nodeName
     = Z.of_nat (size ({[ nodeName ]} ∪ nodeSet))
  /\ spreadStatus requiredHosts nodeSet nodeName
     = (if decide (effectiveSpreadOf nodeSet nodeName < requiredHosts)
        then framework.mkStatus framework.Unschedulable
               ["must schedule across at least "
                +:+ fmt.formatInt requiredHosts +:+ " distinct nodes"]
        else framework.mkStatus framework.Success [])
  /\ (framework.code (spreadStatus requiredHosts nodeSet nodeName)
      = framework.Unschedulable
      <-> effectiveSpreadOf nodeSet nodeName < requiredHosts)
  /\ (framework.code (spreadStatus requiredHosts nodeSet nodeName)
      = framework.Success
      <-> ~ effectiveSpreadOf nodeSet nodeName < requiredHosts)
  /\ (forall r,
        "must schedule across at least "
        +:+ fmt.formatInt requiredHosts +:+ " distinct nodes"
        = "must schedule across at least "
          +:+ fmt.formatInt r +:+ " distinct nodes"
        -> requiredHosts = r).
Proof.
  split; [apply effectiveSpreadOf_eq|].
  split; [rewrite size_with_candidate; apply effectiveSpreadOf_eq|].
  unfold spreadStatus. cbv zeta.
  destruct (Z.ltb_spec (effectiveSpreadOf nodeSet nodeName) requiredHosts)
    as [Hlt|Hge]; cbn.
  - split; [now rewrite decide_True by assumption|].
    split; [easy|]. split; [|intros r; apply rejectReason_inj].
    split; [discriminate | intros Hn; contradiction].
  - split; [rewrite decide_False by lia; reflexivity|].
    split; [split; [discriminate | lia]|].
    split; [|intros r; apply rejectReason_inj].
    split; [intros _; lia | reflexivity].
Qed.

(** *** The placement census *)

Lemma isOwnedByController_OwnedBy (p : v1.Pod) (c : ControllerInfo) :
  isOwnedByController p c = true <-> OwnedBy p c.
Proof.
  unfold isOwnedByController, OwnedBy.
  rewrite existsb_exists. split.
  - intros (o & Hin & H). apply andb_true_iff in H as [Hk Hu].
    apply String.eqb_eq in Hk, Hu. exists o.
    split; [now apply list_elem_of_In | easy].
  - intros (o & Hin & Hk & Hu). exists o.
    split; [now apply list_elem_of_In|].
    apply andb_true_iff. split; now apply String.eqb_eq.
Qed.

Lemma phase_Active (p : v1.Pod) :
  String.eqb (v1.Phase p) v1.PodRunning
  || String.eqb (v1.Phase p) v1.PodPending = true <-> Active p.
Proof.
  unfold Active, v1.PodRunning, v1.PodPending.
  rewrite orb_true_iff, !String.eqb_eq. tauto.
Qed.

Lemma sibling_test (p : v1.Pod) (c : ControllerInfo) :
  isOwnedByController p c
  && (String.eqb (v1.Phase p) v1.PodRunning
      || String.eqb (v1.Phase p) v1.PodPending) = true
  <-> Sibling c p.
Proof.
  unfold Sibling.
  now rewrite andb_true_iff, isOwnedByController_OwnedBy, phase_Active.
Qed.

(** The first loop keeps exactly the siblings, in listing order. *)
Lemma controllerPodsOf_siblings (allPods : list v1.Pod)
    (c : ControllerInfo) :
  controllerPodsOf allPods c = filter (Sibling c) allPods.
Proof.
  unfold controllerPodsOf.
  induction allPods as [|p rest IH]; [reflexivity|].
  simpl. rewrite filter_cons.
  destruct (decide (Sibling c p)) as [Hs|Hs].
  - apply sibling_test in Hs. rewrite Hs. now rewrite IH.
  - destruct (_ && _) eqn:E; [|assumption].
    apply sibling_test in E. contradiction.
Qed.

Lemma nodeSet_fold (pods : list v1.Pod) :
  forall (acc : gset string) (n : string),
    n ∈ fold_left
          (fun (nodeSet : gset string) p =>
             if negb (String.eqb (v1.NodeName p) "")
             then {[ v1.NodeName p ]} ∪ nodeSet
             else nodeSet)
          pods acc
    <-> n ∈ acc \/ (n ≠ "" /\ exists p, p ∈ pods /\ v1.NodeName p = n).
Proof.
  induction pods as [|p rest IH]; intros acc n; simpl.
  - split; [now left|]. intros [H | (_ & q & Hq & _)]; [easy|].
    now apply elem_of_nil in Hq.
  - rewrite IH. destruct (String.eqb_spec (v1.NodeName p) "") as [He|Hne];
      simpl.
    + split.
      * intros [H | (Hn & q & Hq & E)]; [now left|].
        right. split; [easy|]. exists q. split; [now right | easy].
      * intros [H | (Hn & q & Hq & E)]; [now left|].
        apply elem_of_cons in Hq as [-> | Hq]; [congruence|].
        right. split; [easy|]. now exists q.
    + rewrite elem_of_union, elem_of_singleton. split.
      * intros [[-> | H] | (Hn & q & Hq & E)].
        -- right. split; [easy|]. exists p. split; [now left | easy].
        -- now left.
        -- right. split; [easy|]. exists q. split; [now right | easy].
      * intros [H | (Hn & q & Hq & E)]; [left; now right|].
        apply elem_of_cons in Hq as [-> | Hq]; [left; now left|].
        right. split; [easy|]. now exists q.
Qed.

(** The second loop collects the non-empty node names. *)
Lemma nodeSetOf_spec (pods : list v1.Pod) (n : string) :
  n ∈ nodeSetOf pods
  <-> n ≠ "" /\ exists p, p ∈ pods /\ v1.NodeName p = n.
Proof.
  unfold nodeSetOf. rewrite nodeSet_fold. split; [|now right].
  intros [H | H]; [|easy]. now apply not_elem_of_empty in H.
Qed.

(** C6: a pod is kept by the census exactly when some owner reference
    on it has the kind and the UID of the controller reference (the
    name of the reference plays no part) and its phase is Pending or
    Running; the kept pods are those of the listing, in order and with
    repetitions; the placement snapshot is the set of the non-empty
    nodeName values of the kept pods, so a sibling without a node adds
    one to the sibling count and nothing to the node set. *)
Theorem C6_placement_census (allPods : list v1.Pod) (c : ControllerInfo) :
  controllerPodsOf allPods c = filter (Sibling c) allPods
  /\ (forall p, p ∈ controllerPodsOf allPods c
                <-> p ∈ allPods
                    /\ (exists o, o ∈ v1.OwnerReferences p
                                  /\ metav1.Kind o = Type_ c
                                  /\ metav1.UID o = UID c)
                    /\ (v1.Phase p = "Pending" \/ v1.Phase p = "Running"))
  /\ (forall name',
         controllerPodsOf allPods (mkControllerInfo (Type_ c) (UID c) name')
         = controllerPodsOf allPods c)
  /\ (forall n, n ∈ nodeSetOf (controllerPodsOf allPods c)
                <-> n ≠ ""
                    /\ exists p, p ∈ controllerPodsOf allPods c
                                 /\ v1.NodeName p = n)
  /\ (forall p, Sibling c p -> v1.NodeName p = "" ->
        length (controllerPodsOf (p :: allPods) c)
        = S (length (controllerPodsOf allPods c))
        /\ nodeSetOf (controllerPodsOf (p :: allPods) c)
           = nodeSetOf (controllerPodsOf allPods c)).
Proof.
  split; [apply controllerPodsOf_siblings|].
  split.
  { intros p. rewrite controllerPodsOf_siblings, list_elem_of_filter.
    unfold Sibling, OwnedBy, Active. tauto. }
  split; [reflexivity|].
  split; [intros n; apply nodeSetOf_spec|].
  intros p Hs Hn.
  rewrite !controllerPodsOf_siblings, filter_cons_True by assumption.
  split; [reflexivity|].
  apply set_eq. intros n. rewrite !nodeSetOf_spec.
  split; intros (Hne & q & Hq & E); (split; [assumption|]).
  - apply elem_of_cons in Hq as [-> | Hq]; [congruence|]. now exists q.
  - exists q. split; [now right | assumption].
Qed.

(** *** The resolver *)

Lemma recognized_test (kind : string) :
  RecognizedKind kind
  <-> String.eqb kind ReplicaSetType = true
      \/ String.eqb kind StatefulSetType = true
      \/ String.eqb kind JobType = true
      \/ String.eqb kind CronJobType = true.
Proof.
  unfold RecognizedKind, ReplicaSetType, StatefulSetType, JobType,
    CronJobType.
  now rewrite !String.eqb_eq.
Qed.

(** One step of the resolver's loop on an owner it accepts. *)
Lemma getControllerInfoFrom_eligible (o : metav1.OwnerReference)
    (rest : list metav1.OwnerReference) :
  Eligible o -> getControllerInfoFrom (o :: rest) = Some (referenceOf o).
Proof.
  intros (Hk & Hu & Hn). simpl.
  apply String.eqb_neq in Hu, Hn. rewrite Hu, Hn. simpl.
  unfold referenceOf.
  destruct (String.eqb_spec (metav1.Kind o) ReplicaSetType) as [->|H1];
    [reflexivity|].
  destruct (String.eqb_spec (metav1.Kind o) StatefulSetType) as [->|H2];
    [reflexivity|].
  destruct (String.eqb_spec (metav1.Kind o) JobType) as [->|H3];
    [reflexivity|].
  destruct (String.eqb_spec (metav1.Kind o) CronJobType) as [->|H4];
    [reflexivity|].
  destruct Hk as [? | [? | [? | ?]]]; contradiction.
Qed.

(** One step of the loop on an owner it skips. *)
Lemma getControllerInfoFrom_skip (o : metav1.OwnerReference)
    (rest : list metav1.OwnerReference) :
  ~ Eligible o ->
  getControllerInfoFrom (o :: rest) = getControllerInfoFrom rest.
Proof.
  intros Hno. simpl.
  destruct (String.eqb_spec (metav1.UID o) "") as [Hu|Hu]; [reflexivity|].
  destruct (String.eqb_spec (metav1.Name o) "") as [Hn|Hn]; [reflexivity|].
  simpl.
  destruct (String.eqb (metav1.Kind o) ReplicaSetType) eqn:E1;
    [exfalso; apply Hno; split; [apply recognized_test; tauto | easy]|].
  destruct (String.eqb (metav1.Kind o) StatefulSetType) eqn:E2;
    [exfalso; apply Hno; split; [apply recognized_test; tauto | easy]|].
  destruct (String.eqb (metav1.Kind o) JobType) eqn:E3;
    [exfalso; apply Hno; split; [apply recognized_test; tauto | easy]|].
  destruct (String.eqb (metav1.Kind o) CronJobType) eqn:E4;
    [exfalso; apply Hno; split; [apply recognized_test; tauto | easy]|].
  reflexivity.
Qed.

Lemma getControllerInfoFrom_first (refs : list metav1.OwnerReference) :
  match getControllerInfoFrom refs with
  | Some c =>
      exists before o after,
        refs = (before ++ o :: after)%list
        /\ Forall (fun o' => ~ Eligible o') before
        /\ Eligible o /\ c = referenceOf o
  | None => Forall (fun o' => ~ Eligible o') refs
  end.
Proof.
  induction refs as [|o rest IH]; [constructor|].
  destruct (decide (Eligible o)) as [He|Hne].
  - rewrite getControllerInfoFrom_eligible by assumption.
    exists [], o, rest. split; [reflexivity|]. split; [constructor|].
    split; [assumption | reflexivity].
  - rewrite getControllerInfoFrom_skip by assumption.
    destruct (getControllerInfoFrom rest) as [c|].
    + destruct IH as (before & o' & after & -> & Hb & He & ->).
      exists (o :: before), o', after. split; [reflexivity|].
      split; [now constructor|]. split; [assumption | reflexivity].
    + now constructor.
Qed.

Lemma getControllerInfoFrom_prefix (before after : list metav1.OwnerReference)
    (o : metav1.OwnerReference) :
  Forall (fun o' => ~ Eligible o') before -> Eligible o ->
  getControllerInfoFrom (before ++ o :: after) = Some (referenceOf o).
Proof.
  induction 1 as [|o' before Hno _ IH]; intros He; simpl app.
  - now apply getControllerInfoFrom_eligible.
  - rewrite getControllerInfoFrom_skip by assumption. now apply IH.
Qed.

(** *** The runs of Filter *)

Lemma resolved_kind (pod : v1.Pod) (c : ControllerInfo) :
  getControllerInfo pod = Some c ->
  RecognizedKind (Type_ c) /\ UID c ≠ "" /\ Name c ≠ "" /\ OwnedBy pod c.
Proof.
  unfold getControllerInfo. intros H.
  pose proof (getControllerInfoFrom_first (v1.OwnerReferences pod)) as F.
  rewrite H in F. destruct F as (before & o & after & E & _ & He & ->).
  destruct He as (Hk & Hu & Hn). repeat split; try assumption.
  exists o. rewrite E. split; [|easy].
  apply elem_of_app. right. now left.
Qed.

(** The store of a recognized kind either holds the controller or
    fails. *)
Lemma resolves_or_fails (csf : ControllerSpreadFilter) (ns : string)
    (c : ControllerInfo) :
  RecognizedKind (Type_ c) ->
  (exists desired annotations, Resolves csf ns c desired annotations)
  \/ LookupFails csf ns c.
Proof.
  intros [H | [H | [H | H]]].
  - destruct (rsLister csf ns (Name c)) as [rs|err] eqn:E.
    + left. eexists _, _. eapply resolves_rs; eassumption.
    + right. eapply fails_rs; eassumption.
  - destruct (stsLister csf ns (Name c)) as [sts|err] eqn:E.
    + left. eexists _, _. eapply resolves_sts; eassumption.
    + right. eapply fails_sts; eassumption.
  - destruct (jobLister csf ns (Name c)) as [job|err] eqn:E.
    + left. eexists _, _. eapply resolves_job; eassumption.
    + right. eapply fails_job; eassumption.
  - destruct (cronJobLister csf ns (Name c)) as [cj|err] eqn:E.
    + left. eexists _, _. eapply resolves_cj; eassumption.
    + right. eapply fails_cj; eassumption.
Qed.

Lemma controllerRead_not_list (ns ns' : string) (c : ControllerInfo) :
  controllerRead ns c ≠ ListPods ns'.
Proof.
  unfold controllerRead.
  repeat match goal with
         | |- context [if ?b then _ else _] => destruct b
         end; discriminate.
Qed.

Ltac kind_cases H :=
  unfold fetchController, controllerRead; rewrite H;
  unfold getReplicaSet, getStatefulSet, getJob, getCronJob, bind, ret;
  cbn -[String.eqb];
  change (String.eqb "ReplicaSet" ReplicaSetType) with true;
  change (String.eqb "StatefulSet" ReplicaSetType) with false;
  change (String.eqb "StatefulSet" StatefulSetType) with true;
  change (String.eqb "Job" ReplicaSetType) with false;
  change (String.eqb "Job" StatefulSetType) with false;
  change (String.eqb "Job" JobType) with true;
  change (String.eqb "CronJob" ReplicaSetType) with false;
  change (String.eqb "CronJob" StatefulSetType) with false;
  change (String.eqb "CronJob" JobType) with false;
  change (String.eqb "CronJob" CronJobType) with true;
  cbn -[String.eqb].

Lemma fetchController_resolves (csf : ControllerSpreadFilter) (pod : v1.Pod)
    (c : ControllerInfo) (desired : Z) (annotations : gmap string string) :
  Resolves csf (v1.Namespace pod) c desired annotations ->
  fetchController csf pod c
  = (inr (desired, annotations), [controllerRead (v1.Namespace pod) c]).
Proof.
  intros [rs Hk Hl | sts Hk Hl | job Hk Hl | cj Hk Hl];
    kind_cases Hk; rewrite Hl; cbn.
  - now destruct (appsv1.rsReplicas rs).
  - now destruct (appsv1.stsReplicas sts).
  - now destruct (batchv1.jobParallelism job).
  - now destruct (batchv1.cjParallelism cj).
Qed.

Lemma fetchController_fails (csf : ControllerSpreadFilter) (pod : v1.Pod)
    (c : ControllerInfo) :
  LookupFails csf (v1.Namespace pod) c ->
  fetchController csf pod c
  = (inl (framework.NewStatus framework.Success []),
     [controllerRead (v1.Namespace pod) c]).
Proof.
  intros [err Hk Hl | err Hk Hl | err Hk Hl | err Hk Hl];
    kind_cases Hk; now rewrite Hl.
Qed.

(** A run of [Filter] whose controller lookup fails. *)
Lemma Filter_lookup_fails (csf : ControllerSpreadFilter)
    (ctx : context.Context) (cycleState : framework.CycleState)
    (pod : v1.Pod) (nodeInfo : framework.NodeInfo) (c : ControllerInfo) :
  getControllerInfo pod = Some c ->
  LookupFails csf (v1.Namespace pod) c ->
  Filter csf ctx cycleState pod nodeInfo
  = (framework.mkStatus framework.Success [],
     [controllerRead (v1.Namespace pod) c]).
Proof.
  intros Hc Hf. unfold Filter. rewrite Hc.
  rewrite (fetchController_fails _ _ _ Hf). reflexivity.
Qed.

(** A run of [Filter] whose controller lookup succeeds. *)
Lemma Filter_resolved (csf : ControllerSpreadFilter)
    (ctx : context.Context) (cycleState : framework.CycleState)
    (pod : v1.Pod) (nodeInfo : framework.NodeInfo) (c : ControllerInfo)
    (desired : Z) (annotations : gmap string string) :
  getControllerInfo pod = Some c ->
  Resolves csf (v1.Namespace pod) c desired annotations ->
  Filter csf ctx cycleState pod nodeInfo
  = if desired <=? 1 then
      (framework.mkStatus framework.Success [],
       [controllerRead (v1.Namespace pod) c])
    else
      (match podLister csf (v1.Namespace pod) with
       | Err err =>
           framework.mkStatus framework.Error [listErrorReason err]
       | Ok allPods =>
           if (length (controllerPodsOf allPods c) <=? 1)%nat
           then framework.mkStatus framework.Success []
           else spreadStatus (requiredHostsOf desired annotations)
                  (nodeSetOf (controllerPodsOf allPods c))
                  (v1.Name (framework.Node nodeInfo))
       end,
       [controllerRead (v1.Namespace pod) c; ListPods (v1.Namespace pod)]).
Proof.
  intros Hc Hr. unfold Filter. rewrite Hc.
  rewrite (fetchController_resolves _ _ _ _ _ Hr).
  unfold bind, ret, listPods. cbn.
  destruct (desired <=? 1); [reflexivity|]. cbn.
  destruct (podLister csf (v1.Namespace pod)) as [allPods|err];
    [|reflexivity].
  cbn. now destruct (length (controllerPodsOf allPods c) <=? 1)%nat.
Qed.

(** C3: when the resolved controller has a desired count of at most 1
    (1 being the count of an object whose count field is unset), the
    verdict is Success whatever the annotation and the placement, and
    no pod list is made. *)
Theorem C3_single_replica_admits (csf : ControllerSpreadFilter)
    (ctx : context.Context) (cycleState : framework.CycleState)
    (pod : v1.Pod) (nodeInfo : framework.NodeInfo) (c : ControllerInfo)
    (desired : Z) (annotations : gmap string string) :
  getControllerInfo pod = Some c ->
  Resolves csf (v1.Namespace pod) c desired annotations ->
  desired <= 1 ->
  verdict (Filter csf ctx cycleState pod nodeInfo)
  = framework.mkStatus framework.Success []
  /\ forall ns, ListPods ns ∉ reads (Filter csf ctx cycleState pod nodeInfo).
Proof.
  intros Hc Hr Hd.
  rewrite (Filter_resolved _ _ _ _ _ _ _ _ Hc Hr).
  destruct (Z.leb_spec desired 1); [|lia].
  split; [reflexivity|]. intros ns Hin. cbn in Hin.
  apply list_elem_of_singleton in Hin. symmetry in Hin.
  now apply controllerRead_not_list in Hin.
Qed.

Lemma C3_witness_unset_count :
  getControllerInfo cluster.soloPod
  = Some (mkControllerInfo "ReplicaSet" "uid-solo" "solo")
  /\ Resolves cluster.soloCluster "default"
       (mkControllerInfo "ReplicaSet" "uid-solo" "solo") 1
       {[ minHostsAnnotationKey := "9" ]}
  /\ 1 <= 1
  /\ verdict (Filter cluster.soloCluster context.Background cluster.cycle
                cluster.soloPod (cluster.nodeNamed "n1"))
     = framework.mkStatus framework.Success []
  /\ forall ns,
       ListPods ns ∉ reads (Filter cluster.soloCluster context.Background
                              cluster.cycle cluster.soloPod
                              (cluster.nodeNamed "n1")).
Proof.
  assert (H1 : getControllerInfo cluster.soloPod
               = Some (mkControllerInfo "ReplicaSet" "uid-solo" "solo"))
    by reflexivity.
  assert (H2 : Resolves cluster.soloCluster "default"
                 (mkControllerInfo "ReplicaSet" "uid-solo" "solo") 1
                 {[ minHostsAnnotationKey := "9" ]}).
  { exact (resolves_rs cluster.soloCluster "default"
             (mkControllerInfo "ReplicaSet" "uid-solo" "solo")
             (appsv1.mkReplicaSet None {[ minHostsAnnotationKey := "9" ]})
             eq_refl eq_refl). }
  assert (H3 : 1 <= 1) by lia.
  split; [exact H1|]. split; [exact H2|]. split; [exact H3|].
  exact (C3_single_replica_admits cluster.soloCluster context.Background
           cluster.cycle cluster.soloPod (cluster.nodeNamed "n1")
           _ _ _ H1 H2 H3).
Defined.

(** C4: when the lookup of the resolved controller in the store of its
    kind fails, the verdict is Success, whatever the other inputs. *)
Theorem C4_lookup_failure_admits (csf : ControllerSpreadFilter)
    (ctx : context.Context) (cycleState : framework.CycleState)
    (pod : v1.Pod) (nodeInfo : framework.NodeInfo) (c : ControllerInfo) :
  getControllerInfo pod = Some c ->
  LookupFails csf (v1.Namespace pod) c ->
  verdict (Filter csf ctx cycleState pod nodeInfo)
  = framework.mkStatus framework.Success [].
Proof.
  intros Hc Hf. now rewrite (Filter_lookup_fails _ _ _ _ _ _ Hc Hf).
Qed.

Lemma C4_witness_not_found :
  getControllerInfo cluster.webPending
  = Some (mkControllerInfo "ReplicaSet" "uid-web" "web")
  /\ LookupFails cluster.emptyCluster "default"
       (mkControllerInfo "ReplicaSet" "uid-web" "web")
  /\ verdict (Filter cluster.emptyCluster context.Background cluster.cycle
                cluster.webPending (cluster.nodeNamed "n1"))
     = framework.mkStatus framework.Success [].
Proof.
  assert (H1 : getControllerInfo cluster.webPending
               = Some (mkControllerInfo "ReplicaSet" "uid-web" "web"))
    by reflexivity.
  assert (H2 : LookupFails cluster.emptyCluster "default"
                 (mkControllerInfo "ReplicaSet" "uid-web" "web")).
  { exact (fails_rs cluster.emptyCluster "default"
             (mkControllerInfo "ReplicaSet" "uid-web" "web")
             (cluster.notFound "replicaset" "web") eq_refl eq_refl). }
  split; [exact H1|]. split; [exact H2|].
  exact (C4_lookup_failure_admits cluster.emptyCluster context.Background
           cluster.cycle cluster.webPending (cluster.nodeNamed "n1")
           _ H1 H2).
Defined.

(** C5: when the controller is resolved and found with a desired count
    of at least 2 and the pod listing of the namespace fails, the
    verdict is Error, with one reason that carries the text of the
    failure; it is neither Success nor Unschedulable. *)
Theorem C5_pod_list_failure_is_error (csf : ControllerSpreadFilter)
    (ctx : context.Context) (cycleState : framework.CycleState)
    (pod : v1.Pod) (nodeInfo : framework.NodeInfo) (c : ControllerInfo)
    (desired : Z) (annotations : gmap string string) (err : error) :
  getControllerInfo pod = Some c ->
  Resolves csf (v1.Namespace pod) c desired annotations ->
  2 <= desired ->
  podLister csf (v1.Namespace pod) = Err err ->
  verdict (Filter csf ctx cycleState pod nodeInfo)
  = framework.mkStatus framework.Error
      ["error listing pods: " +:+ errorText err]
  /\ "error listing pods: " +:+ errorText err ≠ "".
Proof.
  intros Hc Hr Hd Hl.
  rewrite (Filter_resolved _ _ _ _ _ _ _ _ Hc Hr).
  destruct (Z.leb_spec desired 1); [lia|].
  rewrite Hl. split; [reflexivity | discriminate].
Qed.

Lemma C5_witness_unreadable_pods :
  getControllerInfo cluster.webPending
  = Some (mkControllerInfo "ReplicaSet" "uid-web" "web")
  /\ Resolves (cluster.withPodListError cluster.webCluster (mkError "boom"))
       "default" (mkControllerInfo "ReplicaSet" "uid-web" "web") 3 ∅
  /\ 2 <= 3
  /\ podLister (cluster.withPodListError cluster.webCluster (mkError "boom"))
       "default" = Err (mkError "boom")
  /\ verdict (Filter
                (cluster.withPodListError cluster.webCluster (mkError "boom"))
                context.Background cluster.cycle cluster.webPending
                (cluster.nodeNamed "n1"))
     = framework.mkStatus framework.Error ["error listing pods: boom"]
  /\ "error listing pods: boom" ≠ "".
Proof.
  assert (H1 : getControllerInfo cluster.webPending
               = Some (mkControllerInfo "ReplicaSet" "uid-web" "web"))
    by reflexivity.
  assert (H2 : Resolves
                 (cluster.withPodListError cluster.webCluster (mkError "boom"))
                 "default" (mkControllerInfo "ReplicaSet" "uid-web" "web")
                 3 ∅).
  { exact (resolves_rs
             (cluster.withPodListError cluster.webCluster (mkError "boom"))
             "default" (mkControllerInfo "ReplicaSet" "uid-web" "web")
             (appsv1.mkReplicaSet (Some 3) ∅) eq_refl eq_refl). }
  assert (H3 : 2 <= 3) by lia.
  assert (H4 : podLister
                 (cluster.withPodListError cluster.webCluster (mkError "boom"))
                 "default" = Err (mkError "boom")) by reflexivity.
  split; [exact H1|]. split; [exact H2|]. split; [exact H3|].
  split; [exact H4|].
  exact (C5_pod_list_failure_is_error
           (cluster.withPodListError cluster.webCluster (mkError "boom"))
           context.Background cluster.cycle cluster.webPending
           (cluster.nodeNamed "n1") _ _ _ _ H1 H2 H3 H4).
Defined.

(** C7: the resolver returns the first owner reference, in list order,
    whose kind is ReplicaSet, StatefulSet, Job or CronJob and whose
    UID and name are both non-empty; the owners before it (of another
    kind, or with an empty field) are skipped.  When the pod has no
    such owner the resolver returns nothing and the verdict is
    Success, without any store read. *)
Theorem C7_controller_resolver (pod : v1.Pod) :
  (forall c,
      getControllerInfo pod = Some c
      <-> exists before o after,
            v1.OwnerReferences pod = (before ++ o :: after)%list
            /\ Forall (fun o' => ~ Eligible o') before
            /\ Eligible o
            /\ c = mkControllerInfo (metav1.Kind o) (metav1.UID o)
                     (metav1.Name o))
  /\ (getControllerInfo pod = None
      <-> Forall (fun o' => ~ Eligible o') (v1.OwnerReferences pod))
  /\ (forall csf ctx cycleState nodeInfo,
         getControllerInfo pod = None ->
         Filter csf ctx cycleState pod nodeInfo
         = (framework.mkStatus framework.Success [], [])).
Proof.
  unfold getControllerInfo.
  pose proof (getControllerInfoFrom_first (v1.OwnerReferences pod)) as F.
  split; [|split].
  - intros c. split.
    + intros H. rewrite H in F. exact F.
    + intros (before & o & after & -> & Hb & He & ->).
      now apply getControllerInfoFrom_prefix.
  - split.
    + intros H. now rewrite H in F.
    + intros Hall.
      destruct (getControllerInfoFrom (v1.OwnerReferences pod)) as [c|];
        [|reflexivity].
      destruct F as (before & o & after & E & _ & He & _).
      rewrite E in Hall. apply Forall_app in Hall as [_ Hall].
      apply Forall_cons in Hall as [Hno _]. contradiction.
  - intros csf ctx cycleState nodeInfo H. unfold Filter, getControllerInfo.
    now rewrite H.
Qed.

Lemma C7_witness_first_eligible_owner :
  getControllerInfo
    (v1.mkPod "default"
       [metav1.mkOwnerReference "Deployment" "uid-d" "front";
        metav1.mkOwnerReference "ReplicaSet" "" "front-1";
        metav1.mkOwnerReference "Job" "uid-j" "";
        metav1.mkOwnerReference "StatefulSet" "uid-s" "store";
        metav1.mkOwnerReference "ReplicaSet" "uid-r" "front-2"]
       "" "Pending")
  = Some (mkControllerInfo "StatefulSet" "uid-s" "store").
Proof.
  apply (proj1 (C7_controller_resolver _)).
  exists [metav1.mkOwnerReference "Deployment" "uid-d" "front";
          metav1.mkOwnerReference "ReplicaSet" "" "front-1";
          metav1.mkOwnerReference "Job" "uid-j" ""],
    (metav1.mkOwnerReference "StatefulSet" "uid-s" "store"),
    [metav1.mkOwnerReference "ReplicaSet" "uid-r" "front-2"].
  split; [reflexivity|]. split; [|split; [|reflexivity]].
  - repeat constructor; unfold Eligible, RecognizedKind; cbn;
      intros (Hk & Hu & Hn); try congruence.
    destruct Hk as [? | [? | [? | ?]]]; discriminate.
  - unfold Eligible, RecognizedKind; cbn.
    split; [right; now left|]. split; discriminate.
Defined.

(** C8: when the pod listing of the namespace holds at most one pod
    that is Pending or Running and carries an owner reference with the
    kind and UID of the resolved controller, the verdict is Success,
    whatever the required host count and the candidate node. *)
Theorem C8_single_sibling_admits (csf : ControllerSpreadFilter)
    (ctx : context.Context) (cycleState : framework.CycleState)
    (pod : v1.Pod) (nodeInfo : framework.NodeInfo)
    (allPods : list v1.Pod) :
  podLister csf (v1.Namespace pod) = Ok allPods ->
  (forall c, getControllerInfo pod = Some c ->
             (length (filter (Sibling c) allPods) <= 1)%nat) ->
  verdict (Filter csf ctx cycleState pod nodeInfo)
  = framework.mkStatus framework.Success [].
Proof.
  intros Hl Hcount.
  destruct (getControllerInfo pod) as [c|] eqn:Hc.
  - specialize (Hcount c eq_refl).
    destruct (resolved_kind pod c Hc) as (Hk & _).
    destruct (resolves_or_fails csf (v1.Namespace pod) c Hk)
      as [(desired & annotations & Hr) | Hf].
    + rewrite (Filter_resolved _ _ _ _ _ _ _ _ Hc Hr).
      destruct (desired <=? 1); [reflexivity|].
      rewrite Hl, controllerPodsOf_siblings. cbn.
      destruct (Nat.leb_spec (length (filter (Sibling c) allPods)) 1);
        [reflexivity | lia].
    + now rewrite (Filter_lookup_fails _ _ _ _ _ _ Hc Hf).
  - unfold Filter. now rewrite Hc.
Qed.

Lemma C8_witness_lone_sibling :
  podLister cluster.loneCluster "default"
  = Ok [cluster.webPod "n1" "Running"; cluster.webPod "n1" "Succeeded";
        v1.mkPod "default" [cluster.soloOwner] "n1" "Running"]
  /\ (forall c, getControllerInfo cluster.webPending = Some c ->
        (length (filter (Sibling c)
                   [cluster.webPod "n1" "Running";
                    cluster.webPod "n1" "Succeeded";
                    v1.mkPod "default" [cluster.soloOwner] "n1" "Running"])
         <= 1)%nat)
  /\ verdict (Filter cluster.loneCluster context.Background cluster.cycle
                cluster.webPending (cluster.nodeNamed "n1"))
     = framework.mkStatus framework.Success [].
Proof.
  assert (H1 : podLister cluster.loneCluster "default"
               = Ok [cluster.webPod "n1" "Running";
                     cluster.webPod "n1" "Succeeded";
                     v1.mkPod "default" [cluster.soloOwner] "n1" "Running"])
    by reflexivity.
  assert (H2 : forall c, getControllerInfo cluster.webPending = Some c ->
                 (length (filter (Sibling c)
                            [cluster.webPod "n1" "Running";
                             cluster.webPod "n1" "Succeeded";
                             v1.mkPod "default" [cluster.soloOwner] "n1"
                               "Running"])
                  <= 1)%nat).
  { intros c Hc. injection Hc as <-. vm_compute. lia. }
  split; [exact H1|]. split; [exact H2|].
  exact (C8_single_sibling_admits cluster.loneCluster context.Background
           cluster.cycle cluster.webPending (cluster.nodeNamed "n1")
           _ H1 H2).
Defined.

(** C9, as stated, fails: with a context that is already cancelled the
    predicate still reads the controller store and the pod store and
    returns Unschedulable on one node and Success on another, not
    Error. *)
Lemma C9_canceled_context_counterexample :
  context.Err cluster.canceledCtx = Some context.Canceled
  /\ Filter cluster.webCluster cluster.canceledCtx cluster.cycle
       cluster.webPending (cluster.nodeNamed "n1")
     = (framework.mkStatus framework.Unschedulable
          ["must schedule across at least 2 distinct nodes"],
        [GetReplicaSet "default" "web"; ListPods "default"])
  /\ Filter cluster.webCluster cluster.canceledCtx cluster.cycle
       cluster.webPending (cluster.nodeNamed "n2")
     = (framework.mkStatus framework.Success [],
        [GetReplicaSet "default" "web"; ListPods "default"]).
Proof. repeat split; vm_compute; reflexivity. Qed.

(** C9, as amended: the predicate does not look at its context.  An
    invocation whose context is cancelled or timed out makes the same
    store reads and returns the same verdict as with any other
    context; an Error verdict is returned exactly when the pod listing
    is reached and fails. *)
Theorem C9_context_is_not_consulted (csf : ControllerSpreadFilter)
    (ctx ctx' : context.Context) (cycleState : framework.CycleState)
    (pod : v1.Pod) (nodeInfo : framework.NodeInfo) :
  Filter csf ctx cycleState pod nodeInfo
  = Filter csf ctx' cycleState pod nodeInfo
  /\ (framework.code (verdict (Filter csf ctx cycleState pod nodeInfo))
      = framework.Error
      <-> ListPods (v1.Namespace pod)
            ∈ reads (Filter csf ctx cycleState pod nodeInfo)
          /\ exists err, podLister csf (v1.Namespace pod) = Err err).
Proof.
  split; [reflexivity|].
  destruct (getControllerInfo pod) as [c|] eqn:Hc.
  - destruct (resolved_kind pod c Hc) as (Hk & _).
    destruct (resolves_or_fails csf (v1.Namespace pod) c Hk)
      as [(desired & annotations & Hr) | Hf].
    + rewrite (Filter_resolved _ _ _ _ _ _ _ _ Hc Hr).
      destruct (desired <=? 1); cbn.
      * split; [discriminate|]. intros [Hin _].
        apply list_elem_of_singleton in Hin. symmetry in Hin.
        now apply controllerRead_not_list in Hin.
      * destruct (podLister csf (v1.Namespace pod)) as [allPods|err]; cbn.
        -- split; [|intros [_ [err [=]]]].
           destruct (length (controllerPodsOf allPods c) <=? 1)%nat;
             [discriminate|].
           unfold spreadStatus.
           destruct (_ <? _); discriminate.
        -- split; [|reflexivity]. intros _.
           split; [|now exists err]. right. now left.
    + rewrite (Filter_lookup_fails _ _ _ _ _ _ Hc Hf). cbn.
      split; [discriminate|]. intros [Hin _].
      apply list_elem_of_singleton in Hin. symmetry in Hin.
      now apply controllerRead_not_list in Hin.
  - unfold Filter. rewrite Hc. cbn.
    split; [discriminate|]. intros [Hin _]. now apply elem_of_nil in Hin.
Qed.

(** C10: the census does not set the pod being scheduled apart.  The
    pod itself carries an owner reference with the kind and UID of its
    resolved controller; and every pod of the listing that carries such
    a reference and is Pending or Running is kept by the census, adds
    one to the sibling total compared by the at-most-one short-circuit,
    and puts its nodeName, when non-empty, in the placement set. *)
Theorem C10_candidate_pod_is_counted (pod : v1.Pod) (c : ControllerInfo) :
  getControllerInfo pod = Some c ->
  OwnedBy pod c
  /\ forall (q : v1.Pod) (before after : list v1.Pod),
       OwnedBy q c -> Active q ->
       q ∈ controllerPodsOf (before ++ q :: after) c
       /\ length (controllerPodsOf (before ++ q :: after) c)
          = (length (controllerPodsOf before c) + 1
             + length (controllerPodsOf after c))%nat
       /\ (v1.NodeName q ≠ "" ->
           v1.NodeName q
             ∈ nodeSetOf (controllerPodsOf (before ++ q :: after) c)).
Proof.
  intros Hc. split; [apply (resolved_kind pod c Hc)|].
  intros q before after Ho Ha.
  assert (Hs : Sibling c q) by (split; assumption).
  assert (Hin : q ∈ controllerPodsOf (before ++ q :: after) c).
  { rewrite controllerPodsOf_siblings. apply list_elem_of_filter.
    split; [assumption|]. apply elem_of_app. right. now left. }
  split; [exact Hin|]. split.
  - rewrite !controllerPodsOf_siblings, filter_app, filter_cons_True
      by assumption.
    rewrite length_app. cbn. lia.
  - intros Hn. apply nodeSetOf_spec. split; [assumption|]. now exists q.
Qed.

Lemma C10_witness_pending_pod :
  getControllerInfo cluster.webPending
  = Some (mkControllerInfo "ReplicaSet" "uid-web" "web")
  /\ OwnedBy cluster.webPending
       (mkControllerInfo "ReplicaSet" "uid-web" "web")
  /\ forall (q : v1.Pod) (before after : list v1.Pod),
       OwnedBy q (mkControllerInfo "ReplicaSet" "uid-web" "web") ->
       Active q ->
       q ∈ controllerPodsOf (before ++ q :: after)
             (mkControllerInfo "ReplicaSet" "uid-web" "web")
       /\ length (controllerPodsOf (before ++ q :: after)
                    (mkControllerInfo "ReplicaSet" "uid-web" "web"))
          = (length (controllerPodsOf before
                       (mkControllerInfo "ReplicaSet" "uid-web" "web"))
             + 1
             + length (controllerPodsOf after
                         (mkControllerInfo "ReplicaSet" "uid-web" "web")))%nat
       /\ (v1.NodeName q ≠ "" ->
           v1.NodeName q
             ∈ nodeSetOf (controllerPodsOf (before ++ q :: after)
                            (mkControllerInfo "ReplicaSet" "uid-web" "web"))).
Proof.
  assert (H1 : getControllerInfo cluster.webPending
               = Some (mkControllerInfo "ReplicaSet" "uid-web" "web"))
    by reflexivity.
  split; [exact H1|].
  exact (C10_candidate_pod_is_counted cluster.webPending _ H1).
Defined.

(** *** The scenarios of the specification, run on the clusters above *)

(** The pending pod of [web] is in the listing and is counted: with it
    the census sees two siblings and node [n1] is refused; in a listing
    without it the only sibling left triggers the short-circuit. *)
Example pending_pod_changes_verdict :
  Filter cluster.webCluster context.Background cluster.cycle
    cluster.webPending (cluster.nodeNamed "n1")
  = (framework.mkStatus framework.Unschedulable
       ["must schedule across at least 2 distinct nodes"],
     [GetReplicaSet "default" "web"; ListPods "default"])
  /\ Filter cluster.loneCluster context.Background cluster.cycle
       cluster.webPending (cluster.nodeNamed "n1")
     = (framework.mkStatus framework.Success [],
        [GetReplicaSet "default" "web"; ListPods "default"]).
Proof. split; vm_compute; reflexivity. Qed.

Example scenario_no_owner :
  Filter cluster.webCluster context.Background cluster.cycle
    cluster.barePod (cluster.nodeNamed "n1")
  = (framework.mkStatus framework.Success [], []).
Proof. reflexivity. Qed.

Example scenario_statefulset_three_hosts :
  Filter cluster.dbCluster context.Background cluster.cycle
    (cluster.dbPod "" "Pending") (cluster.nodeNamed "n3")
  = (framework.mkStatus framework.Success [],
     [GetStatefulSet "default" "db"; ListPods "default"])
  /\ Filter cluster.dbCluster context.Background cluster.cycle
       (cluster.dbPod "" "Pending") (cluster.nodeNamed "n2")
     = (framework.mkStatus framework.Unschedulable
          ["must schedule across at least 3 distinct nodes"],
        [GetStatefulSet "default" "db"; ListPods "default"]).
Proof. split; vm_compute; reflexivity. Qed.

Example scenario_oversized_annotation :
  Filter cluster.greedyCluster context.Background cluster.cycle
    cluster.webPending (cluster.nodeNamed "n2")
  = (framework.mkStatus framework.Success [],
     [GetReplicaSet "default" "web"; ListPods "default"]).
Proof. vm_compute. reflexivity. Qed.

(* ===================================================================== *)
(** ** Further properties *)
(* ===================================================================== *)

Import decimal fleet.

(** *** Reading back what [%d] writes *)

Lemma digitsValue_uint (d : Decimal.uint) :
  forall acc,
    digitsValue (NilEmpty.string_of_uint d) acc = Some (uintValue d acc).
Proof.
  induction d; intros acc; simpl; try reflexivity;
    match goal with
    | |- context [strconv.byte_val ?c] =>
        let v := eval vm_compute in (strconv.byte_val c - 48) in
        change (strconv.byte_val c - 48) with v
    end; apply IHd.
Qed.

Lemma uintValue_acc (d : Decimal.uint) :
  forall acc : positive,
    uintValue d (Z.pos acc) = Z.pos (Pos.of_uint_acc d acc).
Proof.
  induction d; intros acc; simpl uintValue; simpl Pos.of_uint_acc;
    try reflexivity;
    match goal with
    | |- uintValue _ ?z = Z.pos (Pos.of_uint_acc _ ?p) =>
        replace z with (Z.pos p) by lia; apply IHd
    end.
Qed.

Lemma uintValue_of_uint (d : Decimal.uint) :
  uintValue d 0 = Z.of_N (Pos.of_uint d).
Proof.
  induction d; simpl uintValue; simpl Pos.of_uint; try reflexivity;
    try assumption;
    match goal with
    | |- uintValue _ ?z = Z.of_N (N.pos (Pos.of_uint_acc _ ?p)) =>
        change z with (Z.pos p); apply uintValue_acc
    end.
Qed.

(** The numeral of a positive number starts with a digit. *)
Lemma to_uint_head (p : positive) :
  exists c rest,
    NilEmpty.string_of_uint (Pos.to_uint p) = String c rest
    /\ isDecimalDigit c = true.
Proof.
  pose proof (DecimalPos.Unsigned.to_uint_nonnil p) as Hn.
  destruct (Pos.to_uint p); [contradiction|..]; simpl; eauto.
Qed.

Lemma unsignedDecimal_pos (p : positive) :
  unsignedDecimal (NilEmpty.string_of_uint (Pos.to_uint p)) = Some (Z.pos p).
Proof.
  destruct (to_uint_head p) as (c & rest & E & _).
  unfold unsignedDecimal. rewrite E, <- E.
  rewrite digitsValue_uint, uintValue_of_uint.
  now rewrite DecimalPos.Unsigned.of_to.
Qed.

Lemma string_of_pos (p : positive) :
  fmt.formatInt (Z.pos p) = NilEmpty.string_of_uint (Pos.to_uint p).
Proof.
  unfold fmt.formatInt. simpl.
  pose proof (DecimalPos.Unsigned.to_uint_nonnil p) as Hn.
  now destruct (Pos.to_uint p).
Qed.

Lemma string_of_neg (p : positive) :
  fmt.formatInt (Z.neg p)
  = String "-" (NilEmpty.string_of_uint (Pos.to_uint p)).
Proof.
  unfold fmt.formatInt. simpl.
  pose proof (DecimalPos.Unsigned.to_uint_nonnil p) as Hn.
  now destruct (Pos.to_uint p).
Qed.

Lemma digit_not_sign (c : ascii) :
  isDecimalDigit c = true ->
  Ascii.eqb c "+" = false /\ Ascii.eqb c "-" = false.
Proof.
  intros H. split; apply Ascii.eqb_neq; intros ->; discriminate H.
Qed.

(** The base-10 reading of the decimal writing of an integer is that
    integer. *)
Lemma decimalInteger_formatInt (n : Z) :
  decimalInteger (fmt.formatInt n) = Some n.
Proof.
  destruct n as [|p|p].
  - reflexivity.
  - rewrite string_of_pos.
    destruct (to_uint_head p) as (c & rest & E & Hd).
    destruct (digit_not_sign c Hd) as [Hp Hm].
    pose proof (unsignedDecimal_pos p) as H. rewrite E in *.
    unfold decimalInteger. now rewrite Hp, Hm.
  - rewrite string_of_neg. unfold decimalInteger.
    change (Ascii.eqb "-" "+") with false.
    change (Ascii.eqb "-" "-") with true. cbv iota.
    now rewrite unsignedDecimal_pos.
Qed.

(** X1: [parseMinHostsAnnotation] reads back the decimal writing of
    every integer: the annotation value written by [%d] for [n] gives
    [n] when [2 <= n <= MaxInt32], and the default 2 for every other
    integer, negative, small or too large for an int32. *)
Theorem X1_annotation_reads_decimal_writing (n : Z) :
  parseMinHostsAnnotation (fmt.formatInt n)
  = (if (2 <=? n) && (n <=? MaxInt32) then n else 2).
Proof.
  now rewrite parseMinHostsAnnotation_decimal, decimalInteger_formatInt.
Qed.

Lemma digitsValue_formatInt (n : Z) :
  digitsValue (fmt.formatInt n) 0 = if 0 <=? n then Some n else None.
Proof.
  destruct n as [|p|p].
  - reflexivity.
  - rewrite string_of_pos.
    pose proof (unsignedDecimal_pos p) as H.
    destruct (to_uint_head p) as (c & rest & E & _).
    rewrite E in *. exact H.
  - rewrite string_of_neg. reflexivity.
Qed.

(** X2: signs and leading zeros in the annotation value.  A value that
    starts with a minus sign always gives the default 2; a plus sign or
    a zero in front of the decimal writing of [n] changes nothing: the
    result is [n] when [2 <= n <= MaxInt32] and 2 otherwise. *)
Theorem X2_annotation_signs_and_zeros (s : string) (n : Z) :
  parseMinHostsAnnotation (String "-" s) = 2
  /\ parseMinHostsAnnotation (String "+" (fmt.formatInt n))
     = (if (2 <=? n) && (n <=? MaxInt32) then n else 2)
  /\ parseMinHostsAnnotation (String "0" (fmt.formatInt n))
     = (if (2 <=? n) && (n <=? MaxInt32) then n else 2).
Proof.
  rewrite !parseMinHostsAnnotation_decimal.
  split; [|split].
  - unfold decimalInteger.
    change (Ascii.eqb "-" "+") with false.
    change (Ascii.eqb "-" "-") with true. cbv iota.
    destruct (unsignedDecimal s) as [v|] eqn:E; [|reflexivity].
    apply strconv_facts.unsignedDecimal_nonneg in E. simpl.
    destruct (Z.leb_spec 2 (- v)); [lia | reflexivity].
  - unfold decimalInteger.
    change (Ascii.eqb "+" "+") with true. cbv iota.
    assert (unsignedDecimal (fmt.formatInt n)
            = digitsValue (fmt.formatInt n) 0) as ->.
    { destruct (fmt.formatInt n) eqn:E; [|reflexivity].
      pose proof (decimalInteger_formatInt n) as H. rewrite E in H.
      discriminate H. }
    rewrite digitsValue_formatInt.
    destruct (Z.leb_spec 0 n); [reflexivity|].
    destruct (Z.leb_spec 2 n); [lia | reflexivity].
  - unfold decimalInteger.
    change (Ascii.eqb "0" "+") with false.
    change (Ascii.eqb "0" "-") with false. cbv iota.
    unfold unsignedDecimal.
    change (digitsValue (String "0" (fmt.formatInt n)) 0)
      with (digitsValue (fmt.formatInt n) 0).
    rewrite digitsValue_formatInt.
    destruct (Z.leb_spec 0 n); [reflexivity|].
    destruct (Z.leb_spec 2 n); [lia | reflexivity].
Qed.

Lemma digitsValue_stops (c : ascii) (tail : string) (front : string) :
  isDecimalDigit c = false ->
  forall acc, digitsValue (front +:+ String c tail) acc = None.
Proof.
  intros Hc. induction front as [|a front IH]; intros acc.
  - change ("" +:+ String c tail) with (String c tail).
    simpl. now rewrite Hc.
  - change (String a front +:+ String c tail)
      with (String a (front +:+ String c tail)).
    simpl. destruct (isDecimalDigit a); [apply IH | reflexivity].
Qed.

(** X3: a byte that is not a decimal digit, anywhere after the first
    byte of the annotation value, makes the value unparseable: the
    result is the default 2 (spaces, decimal points, underscores,
    exponents and hexadecimal letters are not accepted, nor is a sign
    inside the number). *)
Theorem X3_annotation_with_other_bytes (front : string) (c : ascii)
    (tail : string) :
  front <> "" ->
  isDecimalDigit c = false ->
  parseMinHostsAnnotation (front +:+ String c tail) = 2.
Proof.
  intros Hf Hc. rewrite parseMinHostsAnnotation_decimal.
  destruct front as [|a front]; [contradiction|].
  change (String a front +:+ String c tail)
    with (String a (front +:+ String c tail)).
  assert (Hu : unsignedDecimal (front +:+ String c tail) = None).
  { unfold unsignedDecimal.
    destruct (front +:+ String c tail) eqn:E; [reflexivity|].
    rewrite <- E. now apply digitsValue_stops. }
  unfold decimalInteger.
  destruct (Ascii.eqb a "+"); [now rewrite Hu|].
  destruct (Ascii.eqb a "-"); [now rewrite Hu|].
  unfold unsignedDecimal.
  change (String a (front +:+ String c tail))
    with (String a front +:+ String c tail).
  now rewrite digitsValue_stops.
Qed.

Lemma X3_witness_trailing_space :
  "3" <> ""
  /\ isDecimalDigit " " = false
  /\ parseMinHostsAnnotation "3 " = 2.
Proof.
  assert (H1 : "3" <> "") by discriminate.
  assert (H2 : isDecimalDigit " " = false) by reflexivity.
  split; [exact H1|]. split; [exact H2|].
  exact (X3_annotation_with_other_bytes "3" " " "" H1 H2).
Defined.

(** *** The shape of every run *)

Lemma minHostsOf_bounds (annotations : gmap string string) :
  2 <= minHostsOf annotations <= MaxInt32.
Proof.
  rewrite minHostsOf_int32Override. unfold int32Override, MaxInt32.
  destruct (annotations !! minHostsAnnotationKey) as [val|]; [|lia].
  destruct (decimalInteger val) as [n|]; [|lia].
  destruct (Z.leb_spec 2 n); simpl; [|lia].
  destruct (Z.leb_spec n 2147483647); lia.
Qed.

Lemma requiredHostsOf_bounds (desired : Z)
    (annotations : gmap string string) :
  requiredHostsOf desired annotations <= desired
  /\ requiredHostsOf desired annotations <= MaxInt32
  /\ (2 <= desired -> 2 <= requiredHostsOf desired annotations).
Proof.
  unfold requiredHostsOf. rewrite min_is_Zmin.
  pose proof (minHostsOf_bounds annotations). lia.
Qed.

Lemma effectiveSpreadOf_bounds (nodeSet : gset string) (nodeName : string) :
  Z.of_nat (size nodeSet) <= effectiveSpreadOf nodeSet nodeName
  /\ effectiveSpreadOf nodeSet nodeName <= Z.of_nat (size nodeSet) + 1
  /\ 1 <= effectiveSpreadOf nodeSet nodeName.
Proof.
  rewrite effectiveSpreadOf_eq.
  destruct (decide (nodeName ∈ nodeSet)) as [Hin|Hout]; [|lia].
  assert (size nodeSet ≠ 0%nat); [|lia].
  apply size_non_empty_iff. intros He. rewrite He in Hin.
  now apply not_elem_of_empty in Hin.
Qed.

(** The runs of [Filter], by what the resolver and the controller store
    answer. *)
Lemma Filter_runs (csf : ControllerSpreadFilter) (ctx : context.Context)
    (cycleState : framework.CycleState) (pod : v1.Pod)
    (nodeInfo : framework.NodeInfo) :
  (getControllerInfo pod = None
   /\ Filter csf ctx cycleState pod nodeInfo
      = (framework.mkStatus framework.Success [], []))
  \/ (exists c,
         getControllerInfo pod = Some c
         /\ LookupFails csf (v1.Namespace pod) c
         /\ Filter csf ctx cycleState pod nodeInfo
            = (framework.mkStatus framework.Success [],
               [controllerRead (v1.Namespace pod) c]))
  \/ (exists c desired annotations,
         getControllerInfo pod = Some c
         /\ Resolves csf (v1.Namespace pod) c desired annotations
         /\ Filter csf ctx cycleState pod nodeInfo
            = if desired <=? 1 then
                (framework.mkStatus framework.Success [],
                 [controllerRead (v1.Namespace pod) c])
              else
                (match podLister csf (v1.Namespace pod) with
                 | Err err =>
                     framework.mkStatus framework.Error [listErrorReason err]
                 | Ok allPods =>
                     if (length (controllerPodsOf allPods c) <=? 1)%nat
                     then framework.mkStatus framework.Success []
                     else spreadStatus (requiredHostsOf desired annotations)
                            (nodeSetOf (controllerPodsOf allPods c))
                            (v1.Name (framework.Node nodeInfo))
                 end,
                 [controllerRead (v1.Namespace pod) c;
                  ListPods (v1.Namespace pod)])).
Proof.
  destruct (getControllerInfo pod) as [c|] eqn:Hc.
  - right. destruct (resolved_kind pod c Hc) as (Hk & _).
    destruct (resolves_or_fails csf (v1.Namespace pod) c Hk)
      as [(desired & annotations & Hr) | Hf].
    + right. exists c, desired, annotations.
      split; [reflexivity|]. split; [assumption|].
      now apply Filter_resolved.
    + left. exists c. split; [reflexivity|]. split; [assumption|].
      now apply Filter_lookup_fails.
  - left. split; [reflexivity|]. unfold Filter. now rewrite Hc.
Qed.

(** A controller is found in one way only. *)
Lemma Resolves_functional (csf : ControllerSpreadFilter) (ns : string)
    (c : ControllerInfo) (d d' : Z) (a a' : gmap string string) :
  Resolves csf ns c d a -> Resolves csf ns c d' a' -> d = d' /\ a = a'.
Proof.
  intros [rs Hk Hl | sts Hk Hl | job Hk Hl | cj Hk Hl]
         [rs' Hk' Hl' | sts' Hk' Hl' | job' Hk' Hl' | cj' Hk' Hl'];
    try (rewrite Hk in Hk'; discriminate Hk');
    rewrite Hl in Hl'; injection Hl' as <-; split; reflexivity.
Qed.

Lemma controllerRead_namespace (ns : string) (c : ControllerInfo) :
  readNamespace (controllerRead ns c) = ns.
Proof.
  unfold controllerRead.
  repeat match goal with
         | |- context [if ?b then _ else _] => destruct b
         end; reflexivity.
Qed.

(** X6: every run of [Filter] ends in one of three shapes: Success with
    no reason; Error with the single reason ["error listing pods: "]
    followed by the failure of the pod store, which did fail; or
    Unschedulable with the single reason naming a host count between 2
    and [MaxInt32].  No other status code is ever returned. *)
Theorem X6_verdict_shapes (csf : ControllerSpreadFilter)
    (ctx : context.Context) (cycleState : framework.CycleState)
    (pod : v1.Pod) (nodeInfo : framework.NodeInfo) :
  verdict (Filter csf ctx cycleState pod nodeInfo)
  = framework.mkStatus framework.Success []
  \/ (exists err,
         podLister csf (v1.Namespace pod) = Err err
         /\ verdict (Filter csf ctx cycleState pod nodeInfo)
            = framework.mkStatus framework.Error
                ["error listing pods: " +:+ errorText err])
  \/ (exists r,
         2 <= r <= MaxInt32
         /\ verdict (Filter csf ctx cycleState pod nodeInfo)
            = framework.mkStatus framework.Unschedulable
                ["must schedule across at least "
                 +:+ fmt.formatInt r +:+ " distinct nodes"]).
Proof.
  destruct (Filter_runs csf ctx cycleState pod nodeInfo)
    as [[_ ->] | [(c & _ & _ & ->) | (c & d & a & _ & _ & ->)]];
    [now left | now left |].
  destruct (Z.leb_spec d 1); [now left|].
  destruct (podLister csf (v1.Namespace pod)) as [allPods|err]; cbn.
  - destruct (length (controllerPodsOf allPods c) <=? 1)%nat; [now left|].
    unfold spreadStatus.
    destruct (_ <? _); [|now left].
    right. right. exists (requiredHostsOf d a).
    split; [|reflexivity].
    pose proof (requiredHostsOf_bounds d a). lia.
  - right. left. now exists err.
Qed.

(** X7: the store reads of a run.  Every read is made in the namespace
    of the pod; a pod without eligible owner causes no read; otherwise
    the run makes one Get, in the store of the controller's kind and
    under the controller's name, followed by at most one pod listing;
    and the pods are listed exactly when the controller was found with
    a desired count of at least 2. *)
Theorem X7_store_reads (csf : ControllerSpreadFilter)
    (ctx : context.Context) (cycleState : framework.CycleState)
    (pod : v1.Pod) (nodeInfo : framework.NodeInfo) :
  Forall (fun r => readNamespace r = v1.Namespace pod)
    (reads (Filter csf ctx cycleState pod nodeInfo))
  /\ match getControllerInfo pod with
     | None => reads (Filter csf ctx cycleState pod nodeInfo) = []
     | Some c =>
         reads (Filter csf ctx cycleState pod nodeInfo)
         = [controllerRead (v1.Namespace pod) c]
         \/ reads (Filter csf ctx cycleState pod nodeInfo)
            = [controllerRead (v1.Namespace pod) c;
               ListPods (v1.Namespace pod)]
     end
  /\ (ListPods (v1.Namespace pod)
        ∈ reads (Filter csf ctx cycleState pod nodeInfo)
      <-> exists c desired annotations,
            getControllerInfo pod = Some c
            /\ Resolves csf (v1.Namespace pod) c desired annotations
            /\ 2 <= desired).
Proof.
  destruct (Filter_runs csf ctx cycleState pod nodeInfo)
    as [[Hc ->] | [(c & Hc & Hf & ->) | (c & d & a & Hc & Hr & ->)]];
    rewrite Hc; cbn.
  - split; [constructor|]. split; [reflexivity|]. split.
    + intros Hin. now apply elem_of_nil in Hin.
    + intros (c & d & a & [=] & _).
  - split; [repeat constructor; apply controllerRead_namespace|].
    split; [now left|]. split.
    + intros Hin. apply list_elem_of_singleton in Hin. symmetry in Hin.
      now apply controllerRead_not_list in Hin.
    + intros (c' & d & a & [= <-] & Hr & _).
      destruct Hf as [e Hk Hl | e Hk Hl | e Hk Hl | e Hk Hl];
        destruct Hr as [o Hk' Hl' | o Hk' Hl' | o Hk' Hl' | o Hk' Hl'];
        try (rewrite Hk in Hk'; discriminate Hk');
        rewrite Hl in Hl'; discriminate Hl'.
  - destruct (Z.leb_spec d 1); cbn.
    + split; [repeat constructor; apply controllerRead_namespace|].
      split; [now left|]. split.
      * intros Hin. apply list_elem_of_singleton in Hin. symmetry in Hin.
        now apply controllerRead_not_list in Hin.
      * intros (c' & d' & a' & [= <-] & Hr' & Hd).
        destruct (Resolves_functional _ _ _ _ _ _ _ Hr Hr') as [-> _]. lia.
    + split; [repeat constructor; apply controllerRead_namespace|].
      split; [now right|]. split.
      * intros _. exists c, d, a. repeat split; [assumption | lia].
      * intros _. right. now left.
Qed.

(** X5: what a rejection means.  When [Filter] answers Unschedulable
    for a pod whose controller was found, the controller wants at
    least 2 replicas, the pod store was read and lists at least two
    siblings, the reason names the required host count, which lies
    between 2 and the desired count, and the siblings occupy fewer
    distinct nodes than that count. *)
Theorem X5_rejection_anatomy (csf : ControllerSpreadFilter)
    (ctx : context.Context) (cycleState : framework.CycleState)
    (pod : v1.Pod) (nodeInfo : framework.NodeInfo) (c : ControllerInfo)
    (desired : Z) (annotations : gmap string string) :
  getControllerInfo pod = Some c ->
  Resolves csf (v1.Namespace pod) c desired annotations ->
  framework.code (verdict (Filter csf ctx cycleState pod nodeInfo))
  = framework.Unschedulable ->
  2 <= desired
  /\ exists allPods,
       podLister csf (v1.Namespace pod) = Ok allPods
       /\ (2 <= length (filter (Sibling c) allPods))%nat
       /\ 2 <= requiredHostsOf desired annotations <= desired
       /\ framework.reasons (verdict (Filter csf ctx cycleState pod nodeInfo))
          = ["must schedule across at least "
             +:+ fmt.formatInt (requiredHostsOf desired annotations)
             +:+ " distinct nodes"]
       /\ Z.of_nat (size (nodeSetOf (filter (Sibling c) allPods)))
          < requiredHostsOf desired annotations.
Proof.
  intros Hc Hr. rewrite (Filter_resolved _ _ _ _ _ _ _ _ Hc Hr).
  destruct (Z.leb_spec desired 1); [discriminate|].
  destruct (podLister csf (v1.Namespace pod)) as [allPods|err];
    [|discriminate].
  rewrite controllerPodsOf_siblings. cbn.
  destruct (Nat.leb_spec (length (filter (Sibling c) allPods)) 1);
    [discriminate|].
  unfold spreadStatus.
  destruct (Z.ltb_spec
              (effectiveSpreadOf (nodeSetOf (filter (Sibling c) allPods))
                 (v1.Name (framework.Node nodeInfo)))
              (requiredHostsOf desired annotations)); [|discriminate].
  intros _. split; [lia|]. exists allPods.
  pose proof (requiredHostsOf_bounds desired annotations) as (? & ? & ?).
  pose proof (effectiveSpreadOf_bounds
                (nodeSetOf (filter (Sibling c) allPods))
                (v1.Name (framework.Node nodeInfo))) as (? & ? & ?).
  repeat split; try reflexivity; lia.
Qed.

Lemma X5_witness_same_node :
  getControllerInfo cluster.webPending
  = Some (mkControllerInfo "ReplicaSet" "uid-web" "web")
  /\ Resolves cluster.webCluster "default"
       (mkControllerInfo "ReplicaSet" "uid-web" "web") 3 ∅
  /\ framework.code
       (verdict (Filter cluster.webCluster context.Background cluster.cycle
                   cluster.webPending (cluster.nodeNamed "n1")))
     = framework.Unschedulable
  /\ 2 <= 3
  /\ exists allPods,
       podLister cluster.webCluster "default" = Ok allPods
       /\ (2 <= length (filter
                          (Sibling
                             (mkControllerInfo "ReplicaSet" "uid-web" "web"))
                          allPods))%nat
       /\ 2 <= requiredHostsOf 3 ∅ <= 3
       /\ framework.reasons
            (verdict (Filter cluster.webCluster context.Background
                        cluster.cycle cluster.webPending
                        (cluster.nodeNamed "n1")))
          = ["must schedule across at least "
             +:+ fmt.formatInt (requiredHostsOf 3 ∅) +:+ " distinct nodes"]
       /\ Z.of_nat
            (size (nodeSetOf
                     (filter
                        (Sibling
                           (mkControllerInfo "ReplicaSet" "uid-web" "web"))
                        allPods)))
          < requiredHostsOf 3 ∅.
Proof.
  assert (H1 : getControllerInfo cluster.webPending
               = Some (mkControllerInfo "ReplicaSet" "uid-web" "web"))
    by reflexivity.
  assert (H2 : Resolves cluster.webCluster "default"
                 (mkControllerInfo "ReplicaSet" "uid-web" "web") 3 ∅).
  { exact (resolves_rs cluster.webCluster "default"
             (mkControllerInfo "ReplicaSet" "uid-web" "web")
             (appsv1.mkReplicaSet (Some 3) ∅) eq_refl eq_refl). }
  assert (H3 : framework.code
                 (verdict (Filter cluster.webCluster context.Background
                             cluster.cycle cluster.webPending
                             (cluster.nodeNamed "n1")))
               = framework.Unschedulable) by (vm_compute; reflexivity).
  split; [exact H1|]. split; [exact H2|]. split; [exact H3|].
  exact (X5_rejection_anatomy cluster.webCluster context.Background
           cluster.cycle cluster.webPending (cluster.nodeNamed "n1")
           _ _ _ H1 H2 H3).
Defined.

(** *** Which nodes are refused *)

Lemma spreadStatus_rejects (requiredHosts : Z) (nodeSet : gset string)
    (nodeName : string) :
  framework.code (spreadStatus requiredHosts nodeSet nodeName)
  = framework.Unschedulable
  <-> effectiveSpreadOf nodeSet nodeName < requiredHosts.
Proof.
  unfold spreadStatus.
  destruct (Z.ltb_spec (effectiveSpreadOf nodeSet nodeName) requiredHosts);
    cbn; split; try discriminate; try lia; reflexivity.
Qed.

Lemma spreadStatus_admits (requiredHosts : Z) (nodeSet : gset string)
    (nodeName : string) :
  spreadStatus requiredHosts nodeSet nodeName
  = framework.mkStatus framework.Success []
  <-> requiredHosts <= effectiveSpreadOf nodeSet nodeName.
Proof.
  unfold spreadStatus.
  destruct (Z.ltb_spec (effectiveSpreadOf nodeSet nodeName) requiredHosts);
    cbn; split; try discriminate; try lia; reflexivity.
Qed.

(** A run that gets as far as the comparison of the spread. *)
Lemma Filter_at_decision (csf : ControllerSpreadFilter)
    (ctx : context.Context) (cycleState : framework.CycleState)
    (pod : v1.Pod) (nodeInfo : framework.NodeInfo) (c : ControllerInfo)
    (desired : Z) (annotations : gmap string string)
    (allPods : list v1.Pod) :
  getControllerInfo pod = Some c ->
  Resolves csf (v1.Namespace pod) c desired annotations ->
  2 <= desired ->
  podLister csf (v1.Namespace pod) = Ok allPods ->
  (2 <= length (filter (Sibling c) allPods))%nat ->
  verdict (Filter csf ctx cycleState pod nodeInfo)
  = spreadStatus (requiredHostsOf desired annotations)
      (nodeSetOf (filter (Sibling c) allPods))
      (v1.Name (framework.Node nodeInfo)).
Proof.
  intros Hc Hr Hd Hl Hn.
  rewrite (Filter_resolved _ _ _ _ _ _ _ _ Hc Hr).
  destruct (Z.leb_spec desired 1); [lia|].
  rewrite Hl, controllerPodsOf_siblings. cbn.
  destruct (Nat.leb_spec (length (filter (Sibling c) allPods)) 1);
    [lia | reflexivity].
Qed.

Lemma effectiveSpreadOf_fresh (nodeSet : gset string) (nodeName : string) :
  nodeName ∉ nodeSet ->
  effectiveSpreadOf nodeSet nodeName = Z.of_nat (size nodeSet) + 1.
Proof.
  intros H. rewrite effectiveSpreadOf_eq. now rewrite decide_False.
Qed.

Lemma effectiveSpreadOf_hosting (nodeSet : gset string) (nodeName : string) :
  nodeName ∈ nodeSet ->
  effectiveSpreadOf nodeSet nodeName = Z.of_nat (size nodeSet).
Proof.
  intros H. rewrite effectiveSpreadOf_eq. rewrite decide_True by assumption.
  lia.
Qed.



(** X8: when the comparison of the spread is reached (controller found
    with at least 2 desired replicas, pods listed, at least two
    siblings), the pod is accepted on every node exactly when the
    siblings that have a node already occupy at least [requiredHosts]
    distinct nodes: from then on replicas may be put anywhere, also
    next to each other. *)
Theorem X8_admitted_on_every_node (csf : ControllerSpreadFilter)
    (ctx : context.Context) (cycleState : framework.CycleState)
    (pod : v1.Pod) (c : ControllerInfo)
    (desired : Z) (annotations : gmap string string)
    (allPods : list v1.Pod) :
  getControllerInfo pod = Some c ->
  Resolves csf (v1.Namespace pod) c desired annotations ->
  2 <= desired ->
  podLister csf (v1.Namespace pod) = Ok allPods ->
  (2 <= length (filter (Sibling c) allPods))%nat ->
  ((forall nodeInfo,
       verdict (Filter csf ctx cycleState pod nodeInfo)
       = framework.mkStatus framework.Success [])
   <-> requiredHostsOf desired annotations
       <= Z.of_nat (size (nodeSetOf (filter (Sibling c) allPods)))).
Proof.
  intros Hc Hr Hd Hl Hn.
  pose proof (requiredHostsOf_bounds desired annotations) as (_ & _ & Hr2).
  specialize (Hr2 Hd).
  set (S := nodeSetOf (filter (Sibling c) allPods)).
  split.
  - intros H.
    destruct (decide (size S = 0%nat)) as [Hz|Hnz].
    + specialize (H (framework.mkNodeInfo (v1.mkNode ""))).
      rewrite (Filter_at_decision _ _ _ _ _ _ _ _ _ Hc Hr Hd Hl Hn) in H.
      apply spreadStatus_admits in H. fold S in H.
      pose proof (effectiveSpreadOf_bounds S
                    (v1.Name (framework.Node
                                (framework.mkNodeInfo (v1.mkNode ""))))).
      lia.
    + destruct (size_pos_elem_of S) as [x Hx]; [lia|].
      specialize (H (framework.mkNodeInfo (v1.mkNode x))).
      rewrite (Filter_at_decision _ _ _ _ _ _ _ _ _ Hc Hr Hd Hl Hn) in H.
      apply spreadStatus_admits in H. fold S in H. cbn in H.
      now rewrite effectiveSpreadOf_hosting in H.
  - intros Hle nodeInfo.
    rewrite (Filter_at_decision _ _ _ _ _ _ _ _ _ Hc Hr Hd Hl Hn).
    apply spreadStatus_admits. fold S.
    pose proof (effectiveSpreadOf_bounds S
                  (v1.Name (framework.Node nodeInfo))). lia.
Qed.

Lemma X8_witness_three_hosts_reached :
  getControllerInfo cluster.webPending
  = Some (mkControllerInfo "ReplicaSet" "uid-web" "web")
  /\ Resolves spreadCluster "default"
       (mkControllerInfo "ReplicaSet" "uid-web" "web") 5
       {[ minHostsAnnotationKey := "3" ]}
  /\ 2 <= 5
  /\ podLister spreadCluster "default"
     = Ok [cluster.webPod "n1" "Running"; cluster.webPod "n2" "Running";
           cluster.webPod "n3" "Running"; cluster.webPending]
  /\ (2 <= length (filter
                     (Sibling (mkControllerInfo "ReplicaSet" "uid-web" "web"))
                     [cluster.webPod "n1" "Running";
                      cluster.webPod "n2" "Running";
                      cluster.webPod "n3" "Running"; cluster.webPending]))%nat
  /\ ((forall nodeInfo,
          verdict (Filter spreadCluster context.Background cluster.cycle
                     cluster.webPending nodeInfo)
          = framework.mkStatus framework.Success [])
      <-> requiredHostsOf 5 {[ minHostsAnnotationKey := "3" ]}
          <= Z.of_nat
               (size (nodeSetOf
                        (filter
                           (Sibling
                              (mkControllerInfo "ReplicaSet" "uid-web" "web"))
                           [cluster.webPod "n1" "Running";
                            cluster.webPod "n2" "Running";
                            cluster.webPod "n3" "Running";
                            cluster.webPending])))).
Proof.
  assert (H1 : getControllerInfo cluster.webPending
               = Some (mkControllerInfo "ReplicaSet" "uid-web" "web"))
    by reflexivity.
  assert (H2 : Resolves spreadCluster "default"
                 (mkControllerInfo "ReplicaSet" "uid-web" "web") 5
                 {[ minHostsAnnotationKey := "3" ]}).
  { exact (resolves_rs spreadCluster "default"
             (mkControllerInfo "ReplicaSet" "uid-web" "web")
             (appsv1.mkReplicaSet (Some 5)
                {[ minHostsAnnotationKey := "3" ]}) eq_refl eq_refl). }
  assert (H3 : 2 <= 5) by lia.
  assert (H4 : podLister spreadCluster "default"
               = Ok [cluster.webPod "n1" "Running";
                     cluster.webPod "n2" "Running";
                     cluster.webPod "n3" "Running"; cluster.webPending])
    by reflexivity.
  assert (H5 : (2 <= length (filter
                     (Sibling (mkControllerInfo "ReplicaSet" "uid-web" "web"))
                     [cluster.webPod "n1" "Running";
                      cluster.webPod "n2" "Running";
                      cluster.webPod "n3" "Running";
                      cluster.webPending]))%nat)
    by (vm_compute; lia).
  split; [exact H1|]. split; [exact H2|]. split; [exact H3|].
  split; [exact H4|]. split; [exact H5|].
  exact (X8_admitted_on_every_node spreadCluster context.Background
           cluster.cycle cluster.webPending _ _ _ _ H1 H2 H3 H4 H5).
Defined.

Lemma effectiveSpreadOf_below_two (nodeSet : gset string)
    (nodeName : string) :
  effectiveSpreadOf nodeSet nodeName < 2
  <-> forall x, x ∈ nodeSet -> x = nodeName.
Proof.
  destruct (decide (nodeName ∈ nodeSet)) as [Hin|Hout].
  - rewrite effectiveSpreadOf_hosting by assumption. split.
    + intros Hlt x Hx.
      assert (size nodeSet ≠ 0%nat).
      { apply size_non_empty_iff. intros He. rewrite He in Hin.
        now apply not_elem_of_empty in Hin. }
      apply (size_singleton_inv nodeSet); [lia | assumption..].
    + intros Hall.
      assert (Hsub : nodeSet ⊆ {[ nodeName ]}).
      { intros x Hx. apply elem_of_singleton. now apply Hall. }
      apply subseteq_size in Hsub. rewrite size_singleton in Hsub. lia.
  - rewrite effectiveSpreadOf_fresh by assumption. split.
    + intros Hlt x Hx.
      assert (Hz : size nodeSet = 0%nat) by lia.
      apply size_empty_iff in Hz. rewrite Hz in Hx.
      now apply not_elem_of_empty in Hx.
    + intros Hall.
      assert (Hz : size nodeSet = 0%nat).
      { apply size_empty_iff. apply elem_of_equiv_empty. intros x Hx.
        apply Hout. now rewrite <- (Hall x Hx). }
      lia.
Qed.

(** X10: the policy without annotation.  For a controller found with at
    least 2 desired replicas and no [min-hosts] annotation, once the
    pods are listed, a node is refused exactly when there are at least
    two siblings and every sibling that has a node is on that very
    node. *)
Theorem X10_default_policy (csf : ControllerSpreadFilter)
    (ctx : context.Context) (cycleState : framework.CycleState)
    (pod : v1.Pod) (nodeInfo : framework.NodeInfo) (c : ControllerInfo)
    (desired : Z) (annotations : gmap string string)
    (allPods : list v1.Pod) :
  getControllerInfo pod = Some c ->
  Resolves csf (v1.Namespace pod) c desired annotations ->
  2 <= desired ->
  annotations !! "controller-spread-scheduler/min-hosts" = None ->
  podLister csf (v1.Namespace pod) = Ok allPods ->
  (framework.code (verdict (Filter csf ctx cycleState pod nodeInfo))
   = framework.Unschedulable
   <-> (2 <= length (filter (Sibling c) allPods))%nat
       /\ forall p, p ∈ allPods -> Sibling c p ->
            v1.NodeName p = ""
            \/ v1.NodeName p = v1.Name (framework.Node nodeInfo)).
Proof.
  intros Hc Hr Hd Ha Hl.
  assert (Hreq : requiredHostsOf desired annotations = 2).
  { unfold requiredHostsOf, minHostsOf, minHostsAnnotationKey.
    rewrite Ha, min_is_Zmin. lia. }
  destruct (Nat.leb_spec (length (filter (Sibling c) allPods)) 1)
    as [Hfew|Hmany].
  - rewrite (Filter_resolved _ _ _ _ _ _ _ _ Hc Hr).
    destruct (Z.leb_spec desired 1); [lia|].
    rewrite Hl, controllerPodsOf_siblings. cbn.
    destruct (Nat.leb_spec (length (filter (Sibling c) allPods)) 1); [|lia].
    split; [discriminate | lia].
  - rewrite (Filter_at_decision _ _ _ _ _ _ _ _ _ Hc Hr Hd Hl) by lia.
    rewrite spreadStatus_rejects, Hreq, effectiveSpreadOf_below_two.
    split.
    + intros Hall. split; [lia|]. intros p Hp Hs.
      destruct (String.eqb_spec (v1.NodeName p) "") as [He|Hne];
        [now left | right].
      apply Hall, nodeSetOf_spec. split; [assumption|].
      exists p. split; [|reflexivity].
      apply list_elem_of_filter. now split.
    + intros [_ Hall] x Hx.
      apply nodeSetOf_spec in Hx as (Hne & p & Hp & <-).
      apply list_elem_of_filter in Hp as [Hs Hp].
      destruct (Hall p Hp Hs) as [He | He]; [contradiction | assumption].
Qed.

Lemma X10_witness_no_annotation :
  getControllerInfo cluster.webPending
  = Some (mkControllerInfo "ReplicaSet" "uid-web" "web")
  /\ Resolves cluster.webCluster "default"
       (mkControllerInfo "ReplicaSet" "uid-web" "web") 3 ∅
  /\ 2 <= 3
  /\ (∅ : gmap string string) !! "controller-spread-scheduler/min-hosts"
     = None
  /\ podLister cluster.webCluster "default"
     = Ok [cluster.webPod "n1" "Running"; cluster.webPending]
  /\ (framework.code
        (verdict (Filter cluster.webCluster context.Background cluster.cycle
                    cluster.webPending (cluster.nodeNamed "n1")))
      = framework.Unschedulable
      <-> (2 <= length (filter
                          (Sibling
                             (mkControllerInfo "ReplicaSet" "uid-web" "web"))
                          [cluster.webPod "n1" "Running";
                           cluster.webPending]))%nat
          /\ forall p,
               p ∈ [cluster.webPod "n1" "Running"; cluster.webPending] ->
               Sibling (mkControllerInfo "ReplicaSet" "uid-web" "web") p ->
               v1.NodeName p = ""
               \/ v1.NodeName p
                  = v1.Name (framework.Node (cluster.nodeNamed "n1"))).
Proof.
  assert (H1 : getControllerInfo cluster.webPending
               = Some (mkControllerInfo "ReplicaSet" "uid-web" "web"))
    by reflexivity.
  assert (H2 : Resolves cluster.webCluster "default"
                 (mkControllerInfo "ReplicaSet" "uid-web" "web") 3 ∅).
  { exact (resolves_rs cluster.webCluster "default"
             (mkControllerInfo "ReplicaSet" "uid-web" "web")
             (appsv1.mkReplicaSet (Some 3) ∅) eq_refl eq_refl). }
  assert (H3 : 2 <= 3) by lia.
  assert (H4 : (∅ : gmap string string)
                 !! "controller-spread-scheduler/min-hosts" = None)
    by reflexivity.
  assert (H5 : podLister cluster.webCluster "default"
               = Ok [cluster.webPod "n1" "Running"; cluster.webPending])
    by reflexivity.
  split; [exact H1|]. split; [exact H2|]. split; [exact H3|].
  split; [exact H4|]. split; [exact H5|].
  exact (X10_default_policy cluster.webCluster context.Background
           cluster.cycle cluster.webPending (cluster.nodeNamed "n1")
           _ _ _ _ H1 H2 H3 H4 H5).
Defined.

(** X12: a node that hosts no sibling is the best candidate.  If the
    pod store is readable and [Filter] accepts the pod on some node,
    it accepts it on every node on which no sibling of the pod is
    placed. *)
Theorem X12_free_node_is_best (csf : ControllerSpreadFilter)
    (ctx : context.Context) (cycleState : framework.CycleState)
    (pod : v1.Pod) (free other : framework.NodeInfo)
    (allPods : list v1.Pod) :
  podLister csf (v1.Namespace pod) = Ok allPods ->
  (forall c p, getControllerInfo pod = Some c -> p ∈ allPods ->
               Sibling c p ->
               v1.NodeName p ≠ v1.Name (framework.Node free)) ->
  verdict (Filter csf ctx cycleState pod other)
  = framework.mkStatus framework.Success [] ->
  verdict (Filter csf ctx cycleState pod free)
  = framework.mkStatus framework.Success [].
Proof.
  intros Hl Hfree.
  destruct (getControllerInfo pod) as [c|] eqn:Hc.
  - destruct (resolved_kind pod c Hc) as (Hk & _).
    destruct (resolves_or_fails csf (v1.Namespace pod) c Hk)
      as [(desired & annotations & Hr) | Hf].
    + rewrite !(Filter_resolved _ _ _ _ _ _ _ _ Hc Hr).
      destruct (desired <=? 1); [easy|].
      rewrite Hl, controllerPodsOf_siblings. cbn.
      destruct (length (filter (Sibling c) allPods) <=? 1)%nat; [easy|].
      rewrite !spreadStatus_admits. intros Hother.
      rewrite effectiveSpreadOf_fresh.
      * pose proof (effectiveSpreadOf_bounds
                      (nodeSetOf (filter (Sibling c) allPods))
                      (v1.Name (framework.Node other))). lia.
      * intros Hin. apply nodeSetOf_spec in Hin as (_ & p & Hp & E).
        apply list_elem_of_filter in Hp as [Hs Hp].
        exact (Hfree c p eq_refl Hp Hs E).
    + now rewrite !(Filter_lookup_fails _ _ _ _ _ _ Hc Hf).
  - unfold Filter. now rewrite Hc.
Qed.

Lemma X12_witness_third_node :
  podLister cluster.dbCluster "default"
  = Ok [cluster.dbPod "n1" "Running"; cluster.dbPod "n2" "Running";
        cluster.dbPod "" "Pending"]
  /\ (forall c p,
        getControllerInfo (cluster.dbPod "" "Pending") = Some c ->
        p ∈ [cluster.dbPod "n1" "Running"; cluster.dbPod "n2" "Running";
             cluster.dbPod "" "Pending"] ->
        Sibling c p ->
        v1.NodeName p ≠ v1.Name (framework.Node (cluster.nodeNamed "n4")))
  /\ verdict (Filter cluster.dbCluster context.Background cluster.cycle
                (cluster.dbPod "" "Pending") (cluster.nodeNamed "n3"))
     = framework.mkStatus framework.Success []
  /\ verdict (Filter cluster.dbCluster context.Background cluster.cycle
                (cluster.dbPod "" "Pending") (cluster.nodeNamed "n4"))
     = framework.mkStatus framework.Success [].
Proof.
  assert (H1 : podLister cluster.dbCluster "default"
               = Ok [cluster.dbPod "n1" "Running";
                     cluster.dbPod "n2" "Running";
                     cluster.dbPod "" "Pending"]) by reflexivity.
  assert (H2 : forall c p,
             getControllerInfo (cluster.dbPod "" "Pending") = Some c ->
             p ∈ [cluster.dbPod "n1" "Running";
                  cluster.dbPod "n2" "Running";
                  cluster.dbPod "" "Pending"] ->
             Sibling c p ->
             v1.NodeName p
             ≠ v1.Name (framework.Node (cluster.nodeNamed "n4"))).
  { intros c p _ Hp _.
    repeat (apply elem_of_cons in Hp as [-> | Hp]; [discriminate|]).
    now apply elem_of_nil in Hp. }
  assert (H3 : verdict (Filter cluster.dbCluster context.Background
                          cluster.cycle (cluster.dbPod "" "Pending")
                          (cluster.nodeNamed "n3"))
               = framework.mkStatus framework.Success [])
    by (vm_compute; reflexivity).
  split; [exact H1|]. split; [exact H2|]. split; [exact H3|].
  exact (X12_free_node_is_best cluster.dbCluster context.Background
           cluster.cycle (cluster.dbPod "" "Pending")
           (cluster.nodeNamed "n4") (cluster.nodeNamed "n3") _ H1 H2 H3).
Defined.

(** *** The listing and the owner list as inputs *)

Lemma nodeSetOf_ext (pods pods' : list v1.Pod) :
  (forall p, p ∈ pods <-> p ∈ pods') -> nodeSetOf pods = nodeSetOf pods'.
Proof.
  intros H. apply set_eq. intros n. rewrite !nodeSetOf_spec.
  split; intros (Hne & p & Hp & E); (split; [assumption|]); exists p;
    (split; [now apply H | assumption]).
Qed.

(** X9: only the siblings in the pod listing matter, not their order
    nor the other pods.  Two pod stores whose listings hold the same
    siblings of the resolved controller, each as many times, in any
    order and among any other pods, give the same verdict and the same
    store reads. *)
Theorem X9_listing_order_irrelevant (csf : ControllerSpreadFilter)
    (ctx : context.Context) (cycleState : framework.CycleState)
    (pod : v1.Pod) (nodeInfo : framework.NodeInfo) (c : ControllerInfo)
    (pods pods' : list v1.Pod) :
  getControllerInfo pod = Some c ->
  filter (Sibling c) pods ≡ₚ filter (Sibling c) pods' ->
  Filter (withPodList csf pods) ctx cycleState pod nodeInfo
  = Filter (withPodList csf pods') ctx cycleState pod nodeInfo.
Proof.
  intros Hc Hperm. unfold Filter. rewrite Hc.
  change (fetchController (withPodList csf pods) pod c)
    with (fetchController csf pod c).
  change (fetchController (withPodList csf pods') pod c)
    with (fetchController csf pod c).
  destruct (fetchController csf pod c) as [[status | [desired annotations]] log];
    [reflexivity|].
  unfold bind, ret, listPods. cbn.
  destruct (desired <=? 1); [reflexivity|]. cbn.
  rewrite !controllerPodsOf_siblings.
  rewrite (Permutation_length Hperm).
  rewrite (nodeSetOf_ext _ _ (fun p => elem_of_Permutation_proper p _ _ Hperm)).
  reflexivity.
Qed.

Lemma X9_witness_shuffled_listing :
  getControllerInfo cluster.webPending
  = Some (mkControllerInfo "ReplicaSet" "uid-web" "web")
  /\ filter (Sibling (mkControllerInfo "ReplicaSet" "uid-web" "web"))
       [cluster.webPod "n1" "Running"; cluster.webPending]
     ≡ₚ filter (Sibling (mkControllerInfo "ReplicaSet" "uid-web" "web"))
          [cluster.soloPod; cluster.webPending;
           cluster.webPod "n1" "Succeeded"; cluster.webPod "n1" "Running"]
  /\ Filter (withPodList cluster.webCluster
               [cluster.webPod "n1" "Running"; cluster.webPending])
       context.Background cluster.cycle cluster.webPending
       (cluster.nodeNamed "n1")
     = Filter (withPodList cluster.webCluster
                 [cluster.soloPod; cluster.webPending;
                  cluster.webPod "n1" "Succeeded";
                  cluster.webPod "n1" "Running"])
         context.Background cluster.cycle cluster.webPending
         (cluster.nodeNamed "n1").
Proof.
  assert (H1 : getControllerInfo cluster.webPending
               = Some (mkControllerInfo "ReplicaSet" "uid-web" "web"))
    by reflexivity.
  assert (H2 : filter (Sibling (mkControllerInfo "ReplicaSet" "uid-web" "web"))
                 [cluster.webPod "n1" "Running"; cluster.webPending]
               ≡ₚ filter
                    (Sibling (mkControllerInfo "ReplicaSet" "uid-web" "web"))
                    [cluster.soloPod; cluster.webPending;
                     cluster.webPod "n1" "Succeeded";
                     cluster.webPod "n1" "Running"]).
  { exact (perm_swap cluster.webPending (cluster.webPod "n1" "Running") []). }
  split; [exact H1|]. split; [exact H2|].
  exact (X9_listing_order_irrelevant cluster.webCluster context.Background
           cluster.cycle cluster.webPending (cluster.nodeNamed "n1")
           _ _ _ H1 H2).
Defined.

Lemma getControllerInfoFrom_app (refs more : list metav1.OwnerReference) :
  getControllerInfoFrom (refs ++ more)
  = match getControllerInfoFrom refs with
    | Some c => Some c
    | None => getControllerInfoFrom more
    end.
Proof.
  induction refs as [|o refs IH]; [reflexivity|].
  destruct (decide (Eligible o)) as [He|Hne].
  - change ((o :: refs) ++ more)%list with (o :: (refs ++ more))%list.
    now rewrite !getControllerInfoFrom_eligible.
  - change ((o :: refs) ++ more)%list with (o :: (refs ++ more))%list.
    now rewrite !getControllerInfoFrom_skip.
Qed.

(** X13: owner references added after the others never change a
    resolution already made.  The controller of a pod whose owner list
    is [refs] followed by [more] is the one resolved from [refs] when
    there is one, and otherwise the one resolved from [more]; owner
    references that are not eligible can be added anywhere without
    effect. *)
Theorem X13_resolver_on_appended_owners (ns node phase : string)
    (refs more : list metav1.OwnerReference) :
  getControllerInfo (v1.mkPod ns (refs ++ more) node phase)
  = match getControllerInfo (v1.mkPod ns refs node phase) with
    | Some c => Some c
    | None => getControllerInfo (v1.mkPod ns more node phase)
    end
  /\ forall o,
       ~ Eligible o ->
       getControllerInfo (v1.mkPod ns (refs ++ o :: more) node phase)
       = getControllerInfo (v1.mkPod ns (refs ++ more) node phase).
Proof.
  unfold getControllerInfo. cbn. split.
  - apply getControllerInfoFrom_app.
  - intros o Hno. rewrite !getControllerInfoFrom_app.
    now rewrite getControllerInfoFrom_skip.
Qed.

Lemma nodeSetOf_app (pods more : list v1.Pod) :
  nodeSetOf (pods ++ more) = nodeSetOf pods ∪ nodeSetOf more.
Proof.
  apply set_eq. intros n.
  rewrite elem_of_union, !nodeSetOf_spec. split.
  - intros (Hne & p & Hp & E). apply elem_of_app in Hp as [Hp | Hp];
      [left | right]; (split; [assumption|]); now exists p.
  - intros [(Hne & p & Hp & E) | (Hne & p & Hp & E)];
      (split; [assumption|]); exists p;
      (split; [apply elem_of_app; tauto | assumption]).
Qed.

Lemma nodeSetOf_size (pods : list v1.Pod) :
  (size (nodeSetOf pods) <= length pods)%nat.
Proof.
  induction pods as [|p pods IH].
  { unfold nodeSetOf. cbn. now rewrite size_empty. }
  change (p :: pods) with ([p] ++ pods)%list.
  rewrite nodeSetOf_app, size_union_alt.
  assert (size (nodeSetOf pods ∖ nodeSetOf [p]) <= size (nodeSetOf pods))%nat
    by (apply subseteq_size, subseteq_difference_l; reflexivity).
  assert (size (nodeSetOf [p]) <= 1)%nat.
  { unfold nodeSetOf. cbn.
    destruct (String.eqb (v1.NodeName p) ""); cbn.
    - rewrite size_empty. lia.
    - rewrite union_empty_r_L, size_singleton. lia. }
  cbn [length app]. lia.
Qed.

(** X14: the placement set against the sibling count.  The siblings
    never occupy more distinct nodes than there are siblings, so the
    effective spread is at most the sibling count plus one; and the
    placement set of a longer listing is the union of the placement
    sets of its parts. *)
Theorem X14_spread_bounded_by_siblings (allPods more : list v1.Pod)
    (c : ControllerInfo) (nodeName : string) :
  (size (nodeSetOf (controllerPodsOf allPods c))
   <= length (controllerPodsOf allPods c))%nat
  /\ effectiveSpreadOf (nodeSetOf (controllerPodsOf allPods c)) nodeName
     <= Z.of_nat (length (controllerPodsOf allPods c)) + 1
  /\ nodeSetOf (controllerPodsOf (allPods ++ more) c)
     = nodeSetOf (controllerPodsOf allPods c)
       ∪ nodeSetOf (controllerPodsOf more c).
Proof.
  pose proof (nodeSetOf_size (controllerPodsOf allPods c)) as Hs.
  split; [exact Hs|]. split.
  - pose proof (effectiveSpreadOf_bounds
                  (nodeSetOf (controllerPodsOf allPods c)) nodeName). lia.
  - unfold controllerPodsOf. rewrite List.filter_app. apply nodeSetOf_app.
Qed.

(** X4: the annotation as a setting.  Writing the decimal form of [n]
    under the key [controller-spread-scheduler/min-hosts] makes
    [requiredHosts] the smaller of the desired count and [n] when
    [2 <= n <= MaxInt32], and the smaller of the desired count and 2
    for any other [n]; removing the key gives the smaller of the desired
    count and 2; annotations under other keys have no effect; and
    [requiredHosts] never exceeds the desired count. *)
Theorem X4_annotation_as_setting (desired n : Z)
    (annotations : gmap string string) :
  requiredHostsOf desired
    (<[ "controller-spread-scheduler/min-hosts" := fmt.formatInt n ]>
       annotations)
  = Z.min desired (if (2 <=? n) && (n <=? MaxInt32) then n else 2)
  /\ requiredHostsOf desired
       (delete "controller-spread-scheduler/min-hosts" annotations)
     = Z.min desired 2
  /\ (forall key val,
        key <> "controller-spread-scheduler/min-hosts" ->
        requiredHostsOf desired (<[ key := val ]> annotations)
        = requiredHostsOf desired annotations)
  /\ requiredHostsOf desired annotations <= desired.
Proof.
  unfold requiredHostsOf, minHostsOf, minHostsAnnotationKey.
  rewrite !min_is_Zmin. split; [|split; [|split]].
  - rewrite lookup_insert_eq.
    now rewrite parseMinHostsAnnotation_decimal, decimalInteger_formatInt.
  - now rewrite lookup_delete_eq.
  - intros key val Hne. rewrite lookup_insert_ne by assumption.
    now rewrite min_is_Zmin.
  - lia.
Qed.
